(** * PyCFramework: the solution tester [Solutions/dev/test.py]

    A shallow embedding of the compile / run / compare pipeline of
    [test.py] and of the cross-user consistency check and the promotion of
    the final artifacts, together with the properties stated about them.

    Python strings are [string]s, dictionaries are [gmap string _], the
    file system is an explicit store threaded through a state-and-error
    monad, and child processes are an oracle acting on that store. *)

From Stdlib Require Import ZArith Lia Ascii.
From stdpp Require Import base gmap strings list fin_maps pretty.

Local Open Scope Z_scope.
#[local] Set Warnings "-register-all".

(** ** Python's [str] operations used by the script *)

Module PyStr.

Definition len (s : string) : nat := String.length s.

Definition ascii_eqb (a b : ascii) : bool := bool_decide (a = b).

(** [s.startswith(p)] *)
Fixpoint startswith (p s : string) : bool :=
  match p, s with
  | EmptyString, _ => true
  | String a p', String b s' => ascii_eqb a b && startswith p' s'
  | String _ _, EmptyString => false
  end.

(** [s.endswith(c)] for a one-character [c] *)
Fixpoint endswith_char (c : ascii) (s : string) : bool :=
  match s with
  | EmptyString => false
  | String a EmptyString => ascii_eqb a c
  | String _ s' => endswith_char c s'
  end.

(** [c in s] for a one-character [c] *)
Fixpoint has_char (c : ascii) (s : string) : bool :=
  match s with
  | EmptyString => false
  | String a s' => ascii_eqb a c || has_char c s'
  end.

(** [s[:n]] and [s[n:]] *)
Fixpoint take (n : nat) (s : string) : string :=
  match n, s with
  | S n', String a s' => String a (take n' s')
  | _, _ => EmptyString
  end.

Fixpoint drop (n : nat) (s : string) : string :=
  match n, s with
  | S n', String _ s' => drop n' s'
  | _, _ => s
  end.

(** [s.rfind(c)]: the last index of [c], or [-1]. *)
Fixpoint rfind_from (c : ascii) (i : Z) (found : Z) (s : string) : Z :=
  match s with
  | EmptyString => found
  | String a s' =>
      rfind_from c (i + 1) (if ascii_eqb a c then i else found) s'
  end.

Definition rfind (c : ascii) (s : string) : Z := rfind_from c 0 (-1) s.

(** [s.replace("", new)]: [new] before every character and at the end. *)
Fixpoint interleave (new s : string) : string :=
  match s with
  | EmptyString => new
  | String a s' => new +:+ String a (interleave new s')
  end.

(** The left-to-right scan of [s.replace(old, new)] for a non-empty
    [old]; [skip] counts the characters of a matched occurrence that are
    still to be passed over, so occurrences never overlap. *)
Fixpoint replace_scan (old new : string) (skip : nat) (s : string) : string :=
  match s with
  | EmptyString => EmptyString
  | String a s' =>
      match skip with
      | S k => replace_scan old new k s'
      | O =>
          if startswith old s
          then new +:+ replace_scan old new (Nat.pred (len old)) s'
          else String a (replace_scan old new 0 s')
      end
  end.

(** [s.replace(old, new)] *)
Definition replace (old new s : string) : string :=
  match old with
  | EmptyString => interleave new s
  | String _ _ => replace_scan old new 0 s
  end.

(** [str(n)] for an [int] *)
Definition of_int (n : Z) : string := pretty n.

(** [s.lower()] on the ASCII letters *)
Definition lower_char (a : ascii) : ascii :=
  let n := nat_of_ascii a in
  if (65 <=? n)%nat && (n <=? 90)%nat then ascii_of_nat (n + 32) else a.

Fixpoint lower (s : string) : string :=
  match s with
  | EmptyString => EmptyString
  | String a s' => String (lower_char a) (lower s')
  end.

(** What a file opened in text mode gives for its stored characters:
    with the default [newline=None] a carriage return followed by a line
    feed, and a carriage return alone, are read as one line feed. *)
Definition CR : ascii := "013"%char.
Definition LF : ascii := "010"%char.

Fixpoint universal_newlines (s : string) : string :=
  match s with
  | EmptyString => EmptyString
  | String a s' =>
      if ascii_eqb a CR
      then match s' with
           | String b s'' =>
               if ascii_eqb b LF then String LF (universal_newlines s'')
               else String LF (universal_newlines s')
           | EmptyString => String LF EmptyString
           end
      else String a (universal_newlines s')
  end.

End PyStr.

(** ** [os.path] on POSIX *)

Module OsPath.
Import PyStr.

Definition sep : ascii := "/"%char.
Definition extsep : ascii := "."%char.

(** [os.path.join(a, b)] *)
Definition join (a b : string) : string :=
  if startswith "/" b then b
  else if bool_decide (a = "") || endswith_char sep a then a +:+ b
  else a +:+ "/" +:+ b.

(** [os.path.basename(p)] *)
Definition basename (p : string) : string :=
  drop (Z.to_nat (rfind sep p + 1)) p.

(** The loop of [genericpath._splitext] that looks, from
    [filenameIndex] up to [dotIndex], for a character that is not a
    dot. *)
Fixpoint has_non_dot (p : string) (n : nat) : bool :=
  match n, p with
  | S n', String a p' => negb (ascii_eqb a extsep) || has_non_dot p' n'
  | _, _ => false
  end.

(** [os.path.splitext(p)] *)
Definition splitext (p : string) : string * string :=
  let sepIndex := rfind sep p in
  let dotIndex := rfind extsep p in
  if (sepIndex <? dotIndex)
     && has_non_dot (drop (Z.to_nat (sepIndex + 1)) p)
                    (Z.to_nat (dotIndex - (sepIndex + 1)))
  then (take (Z.to_nat dotIndex) p, drop (Z.to_nat dotIndex) p)
  else (p, "").

End OsPath.

(** ** Values, exceptions and the configuration *)

(** The values [json.loads] produces. *)
Inductive pyval : Type :=
  | VNone
  | VBool (b : bool)
  | VInt (n : Z)
  | VStr (s : string)
  | VList (items : list pyval)
  | VDict (fields : list (string * pyval)).

(** The exceptions the modelled code can raise. *)
Inductive exn : Type :=
  | KeyError (key : string)
  | TypeError
  | AttributeError
  | UnboundLocalError (name : string)
  | IndexError
  | OSError
  | SameFileError.

Inductive res (A : Type) : Type :=
  | Ok (a : A)
  | Raise (e : exn).
Arguments Ok {A} a.
Arguments Raise {A} e.

Definition res_bind {A B} (m : res A) (f : A → res B) : res B :=
  match m with
  | Ok a => f a
  | Raise e => Raise e
  end.


(** [conf/variables.json]: the placeholder spelled by each variable. *)
Record Variables : Type := {
  var_filename : string;
  var_filename_less_extension : string;
  var_directory : string;
  var_problem_number : string;
  var_case_type : string;
  var_language : string
}.

(** [conf/definitions.json] *)
Record Definitions : Type := {
  solution_naming : string;
  user_output_directory : string;
  writers_directory : string;
  test_directory : string;
  finalio_directory : string;
  sample_case_extension : string;
  corner_case_extension : string;
  generated_case_extension : string;
  input_file_ending : string;
  output_file_ending : string;
  html_diff_naming : string
}.

(** A language block of [conf/languages.json] is a dictionary. *)
Abbreviation LanguageBlock := (gmap string pyval).

(** The process-wide configuration: the directory of the script
    ([os.path.dirname(os.path.abspath(__file__))]) and the three loaded
    configuration files. *)
Record Config : Type := {
  here : string;
  definitions : Definitions;
  variables : Variables;
  languages : list LanguageBlock
}.

(** ** The file system and the console *)

Module Fs.

(** A resolved path: the names from the root down. *)
Abbreviation key := (list string).

(** [p.split("/")] *)
Fixpoint components (p : string) : list string :=
  match p with
  | EmptyString => [""]
  | String a p' =>
      if PyStr.ascii_eqb a "/" then "" :: components p'
      else match components p' with
           | c :: cs => String a c :: cs
           | [] => [String a ""]
           end
  end.

Definition descend (k : key) (c : string) : key :=
  if bool_decide (c = "") || bool_decide (c = ".") then k
  else if bool_decide (c = "..") then removelast k
  else k ++ [c].

(** Resolution of a path in a tree whose directories are not symbolic
    links: empty and [.] components are skipped, [..] steps to the
    parent; relative paths start at the root. *)
Definition resolve (p : string) : key := foldl descend [] (components p).

Record world : Type := World {
  files : gmap key string;
  dirs : gset key;
  links : gset key;
  stdout : list string;
  browser : list string
}.

Definition is_dir_key (k : key) (w : world) : bool :=
  bool_decide (k = []) || bool_decide (k ∈ dirs w).

(** [os.path.isfile], [os.path.isdir], [os.path.islink] *)
Definition isfile (p : string) (w : world) : bool :=
  bool_decide (is_Some (files w !! resolve p)).
Definition isdir (p : string) (w : world) : bool :=
  is_dir_key (resolve p) w.
Definition islink (p : string) (w : world) : bool :=
  bool_decide (resolve p ∈ links w).

Definition set_files (f : gmap key string) (w : world) : world :=
  World f (dirs w) (links w) (stdout w) (browser w).
Definition set_dirs (d : gset key) (w : world) : world :=
  World (files w) d (links w) (stdout w) (browser w).

(** The stored characters of a file, as [shutil.copy] and a child
    process take them. *)
Definition read (p : string) (w : world) : res string :=
  match files w !! resolve p with
  | Some c => Ok c
  | None => Raise OSError
  end.

(** [open(p).read()]: the file is opened in text mode, so its line
    endings are read as line feeds. *)
Definition read_text (p : string) (w : world) : res string :=
  match read p w with
  | Ok c => Ok (PyStr.universal_newlines c)
  | Raise e => Raise e
  end.

(** [open(p, 'w+').write(c)]: the parent must be a directory and [p]
    must not be one. *)
Definition write (p : string) (c : string) (w : world) : res world :=
  let k := resolve p in
  if is_dir_key k w then Raise OSError
  else if is_dir_key (removelast k) w
       then Ok (set_files (<[k := c]> (files w)) w)
       else Raise OSError.

(** All the non-empty prefixes of a key. *)
Definition ancestors (k : key) : list key :=
  (λ n, take n k) <$> seq 1 (length k).

(** [os.makedirs(p)]: fails when [p] exists or a file lies on the way. *)
Definition makedirs (p : string) (w : world) : res world :=
  let k := resolve p in
  if is_dir_key k w then Raise OSError
  else if bool_decide (Exists (λ a, is_Some (files w !! a)) (ancestors k))
       then Raise OSError
       else Ok (set_dirs (list_to_set (ancestors k) ∪ dirs w) w).

Definition child_of (d : key) (k : key) : option string :=
  if bool_decide (removelast k = d) then last k else None.

(** [os.listdir(p)], in the store's own order. *)
Definition listdir (p : string) (w : world) : res (list string) :=
  let d := resolve p in
  if is_dir_key d w
  then Ok (omap (child_of d) (elements (dom (files w) ∪ dirs w ∪ links w)))
  else Raise OSError.

(** [shutil.copy(src, dst)] *)
Definition copy (src dst : string) (w : world) : res world :=
  let target := if isdir dst w then OsPath.join dst (OsPath.basename src) else dst in
  if isfile src w && bool_decide (resolve src = resolve target)
  then Raise SameFileError
  else res_bind (read src w) (λ c, write target c w).

(** [print(line)] and [webbrowser.open(path)] *)
Definition print (line : string) (w : world) : world :=
  World (files w) (dirs w) (links w) (stdout w ++ [line]) (browser w).
Definition browse (path : string) (w : world) : world :=
  World (files w) (dirs w) (links w) (stdout w) (browser w ++ [path]).

End Fs.

(** ** The state-and-error monad of the script *)

(** A step acts on the state and returns a value or raises; what it did
    to the state before raising stays done. *)
Definition StE (S A : Type) : Type := S → res A * S.

Abbreviation M := (StE Fs.world).

Definition M_ret {S A} (a : A) : StE S A := λ w, (Ok a, w).

Definition M_bind {S A B} (m : StE S A) (f : A → StE S B) : StE S B :=
  λ w, match m w with
       | (Ok a, w') => f a w'
       | (Raise e, w') => (Raise e, w')
       end.

Definition raise {S A} (e : exn) : StE S A := λ w, (Raise e, w).

(** A pure computation that may raise. *)
Definition lift {S A} (r : res A) : StE S A := λ w, (r, w).

(** Reading the store and acting on it. *)
Definition ask {A} (f : Fs.world → A) : M A := λ w, (Ok (f w), w).
Definition act (f : Fs.world → res Fs.world) : M unit :=
  λ w, match f w with
       | Ok w' => (Ok tt, w')
       | Raise e => (Raise e, w)
       end.
Definition tell (f : Fs.world → Fs.world) : M unit := λ w, (Ok tt, f w).

(** [open(p).read()], a text-mode read, as a step of the script. *)
Definition read_file (p : string) : M string := λ w, (Fs.read_text p w, w).

Notation "x <- m ; k" := (res_bind m (λ x, k))
  (at level 20, m at level 100, k at level 200, only parsing).
Notation "x <~ m ; k" := (M_bind m (λ x, k))
  (at level 20, m at level 100, k at level 200, only parsing).

(** A [for] loop that threads its local variables. *)
Fixpoint for_each {S A L} (body : L → A → StE S L) (s : L) (l : list A) : StE S L :=
  match l with
  | [] => M_ret s
  | x :: l' => s' <~ body s x; for_each body s' l'
  end.

(** The same in the error monad alone. *)
Fixpoint res_map {A B} (f : A → res B) (l : list A) : res (list B) :=
  match l with
  | [] => Ok []
  | x :: l' => y <- f x; ys <- res_map f l'; Ok (y :: ys)
  end.

(** ** Child processes and library calls left abstract *)

Inductive proc_outcome : Type :=
  | Exited (status : Z) (out : string)
  | SpawnError.

(** [spawn argv stdin w]: what running [argv] with the file [stdin] as its
    input does to the store, its exit status and its decoded output.
    [py_repr] is [str(v)] of a value that is not a string, [html_diff a b]
    is [difflib.HtmlDiff().make_file(a.splitlines(), b.splitlines())]. *)
Record Runtime : Type := {
  spawn : list string → option string → Fs.world → proc_outcome * Fs.world;
  py_repr : pyval → string;
  html_diff : string → string → string
}.

(** ** Dictionary and value helpers *)

(** [d[k]] *)
Definition getitem (d : gmap string pyval) (k : string) : res pyval :=
  match d !! k with
  | Some v => Ok v
  | None => Raise (KeyError k)
  end.

(** [k in d] *)
Definition contains (d : gmap string pyval) (k : string) : bool :=
  bool_decide (is_Some (d !! k)).

(** A value used where the library insists on a [str]. *)
Definition as_str (v : pyval) : res string :=
  match v with
  | VStr s => Ok s
  | _ => Raise TypeError
  end.

Fixpoint chars (s : string) : list pyval :=
  match s with
  | EmptyString => []
  | String a s' => VStr (String a "") :: chars s'
  end.

(** The items [list.extend(v)] appends. *)
Definition iterate (v : pyval) : res (list pyval) :=
  match v with
  | VList items => Ok items
  | VStr s => Ok (chars s)
  | VDict fields => Ok (VStr <$> fields.*1)
  | _ => Raise TypeError
  end.

(** The results of the run stage. *)
Record Run : Type := mkRun {
  userOutput : string;
  correctOutput : string;
  inputFile : string
}.

#[global] Instance Run_eq_dec : EqDecision Run.
Proof. solve_decision. Defined.

(** ** The script *)

Section Script.
Variable cfg : Config.
Variable rt : Runtime.

Let defs := definitions cfg.
Let vars := variables cfg.

(** [get_source_extension] *)
Definition get_source_extension (languageBlock : LanguageBlock) : res pyval :=
  if contains languageBlock "compileExtension"
  then getitem languageBlock "compileExtension"
  else getitem languageBlock "runExtension".

(** The chain of [str.replace] calls of [replace_language_vars_individual]. *)
Definition replace_vars_in (s problemFile directory : string) : string :=
  let filenameWithoutExtension := (OsPath.splitext problemFile).1 in
  PyStr.replace (var_directory vars) directory
    (PyStr.replace (var_filename_less_extension vars) filenameWithoutExtension
       (PyStr.replace (var_filename vars) problemFile s)).

(** [replace_language_vars_individual]: only a [str] has [.replace]. *)
Definition replace_language_vars_individual
    (item : pyval) (problemFile directory : string) : res pyval :=
  match item with
  | VStr s => Ok (VStr (replace_vars_in s problemFile directory))
  | _ => Raise AttributeError
  end.

(** What [replace_language_vars] stores under one key. *)
Definition replace_language_item
    (languageItem : pyval) (problemFile directory : string) : res pyval :=
  match languageItem with
  | VList items =>
      l <- res_map (λ listEntry,
             replace_language_vars_individual listEntry problemFile directory) items;
      Ok (VList l)
  | _ => replace_language_vars_individual languageItem problemFile directory
  end.

(** [replace_language_vars] *)
Definition replace_language_vars
    (languageBlock : LanguageBlock) (problemFile directory : string)
    : res LanguageBlock :=
  map_fold
    (λ key languageItem acc,
       newLanguageBlock <- acc;
       v <- replace_language_item languageItem problemFile directory;
       Ok (<[key := v]> newLanguageBlock))
    (Ok ∅) languageBlock.

(** The argument vector: a command followed by its arguments. *)
Definition command_line (block : LanguageBlock) (command arguments : string)
    : res (list pyval) :=
  c <- getitem block command;
  a <- getitem block arguments;
  l <- iterate a;
  Ok (c :: l).

(** Starting a child process. *)
Definition run_process (argv : list pyval) (stdin : option string) : M proc_outcome :=
  args <~ lift (res_map as_str argv);
  λ w, let '(outcome, w') := spawn rt args stdin w in (Ok outcome, w').

(** [subprocess.call(argv)] *)
Definition call (argv : list pyval) : M Z :=
  outcome <~ run_process argv None;
  match outcome with
  | Exited status _ => M_ret status
  | SpawnError => raise OSError
  end.

(** [compile_solution] *)
Definition compile_solution (convertedLanguageBlock : LanguageBlock) : M bool :=
  if contains convertedLanguageBlock "compileExtension"
  then
    compileCommand <~
      lift (command_line convertedLanguageBlock "compileCommand" "compileArguments");
    status <~ call compileCommand;
    M_ret (bool_decide (status = 0))
  else M_ret true.

(** The local variables of [run_solution] that outlive an iteration;
    [None] is a name that is not bound yet. *)
Record run_locals : Type := mkLocals {
  output : option string;
  outputFileContents : option string;
  results : list Run
}.

(** Reading a local variable. *)
Definition local (name : string) (v : option string) : res string :=
  match v with
  | Some s => Ok s
  | None => Raise (UnboundLocalError name)
  end.

(** [subprocess.check_output(argv, stdin=open(inputFile))]; [None] is
    [CalledProcessError]. *)
Definition check_output (argv : list pyval) (inputFile : string) : M (option string) :=
  outcome <~ run_process argv (Some inputFile);
  match outcome with
  | Exited status out =>
      if bool_decide (status = 0) then M_ret (Some out) else M_ret None
  | SpawnError => raise OSError
  end.

(** The path of the expected output of an input file. *)
Definition expected_output_path (inputFile : string) : string :=
  PyStr.replace ("." +:+ input_file_ending defs) ("." +:+ output_file_ending defs)
    inputFile.

(** [outputDirectory + "/" + os.path.basename(outputFile)] *)
Definition save_path (outputDirectory outputFile : string) : string :=
  outputDirectory +:+ "/" +:+ OsPath.basename outputFile.

(** One iteration of the loop of [run_solution]. *)
Definition run_input (runCommand : list pyval) (outputDirectory : string)
    (st : run_locals) (inputFile : string) : M run_locals :=
  _ <~ read_file inputFile;
  let outputFile := expected_output_path inputFile in
  captured <~ check_output runCommand inputFile;
  match captured with
  | Some out =>
      let saveOutputFile := save_path outputDirectory outputFile in
      _ <~ act (Fs.write saveOutputFile out);
      present <~ ask (Fs.isfile outputFile);
      expected <~ (if negb present then M_ret out else read_file outputFile);
      M_ret (mkLocals (Some out) (Some expected)
               (results st ++ [mkRun out expected inputFile]))
  | None =>
      o <~ lift (local "output" (output st));
      e <~ lift (local "outputFileContents" (outputFileContents st));
      M_ret (mkLocals (output st) (outputFileContents st)
               (results st ++ [mkRun o e inputFile]))
  end.

(** [run_solution] *)
Definition run_solution (convertedLanguageBlock : LanguageBlock)
    (outputDirectory : string) (inputFiles : list string) : M (list Run) :=
  runCommand <~ lift (command_line convertedLanguageBlock "runCommand" "runArguments");
  st <~ for_each (run_input runCommand outputDirectory)
          (mkLocals None None []) inputFiles;
  M_ret (results st).

(** [definitions['solution_naming'].replace(variables['problem_number'],
    str(problem))] *)
Definition problem_string (problem : Z) : string :=
  PyStr.replace (var_problem_number vars) (PyStr.of_int problem)
    (solution_naming defs).

(** [os.path.join(directory, problemString + caseExtension + '.' + ending)] *)
Definition case_path (directory : string) (problem : Z)
    (caseExtension ending : string) : string :=
  OsPath.join directory (problem_string problem +:+ caseExtension +:+ "." +:+ ending).

(** [str(v)], as [str.format] inserts it. *)
Definition py_str (v : pyval) : string :=
  match v with
  | VStr s => s
  | _ => py_repr rt v
  end.

(** The label of a run in the reports. *)
Definition item_type (run : Run) (sampleFile : string) : string :=
  if bool_decide (inputFile run = sampleFile) then "SAMPLE" else "CORNER".

Definition failed_line (itemType user : string) (problem : Z) (language : pyval)
    : string :=
  "FAILED " +:+ itemType +:+ ": " +:+ user +:+ "'s problem "
    +:+ PyStr.of_int problem +:+ " solution in " +:+ py_str language.

Definition diff_path (userOutputDirectory itemType language : string) (problem : Z)
    : string :=
  OsPath.join userOutputDirectory
    (PyStr.replace (var_problem_number vars) (PyStr.of_int problem)
       (PyStr.replace (var_language vars) language
          (PyStr.replace (var_case_type vars) (PyStr.lower itemType)
             (html_diff_naming defs)))).

(** The body of [for run in results.runs] in [test_solution]. *)
Definition check_run (problem : Z) (user : string)
    (convertedLanguageBlock : LanguageBlock)
    (sampleFile userOutputDirectory : string) (generateHTML openHTML : bool)
    (numCorrectRuns : nat) (run : Run) : M nat :=
  let itemType := item_type run sampleFile in
  if negb (bool_decide (userOutput run = correctOutput run))
  then
    language <~ lift (getitem convertedLanguageBlock "language");
    _ <~ tell (Fs.print (failed_line itemType user problem language));
    _ <~ (if generateHTML
          then
            let diffContents := html_diff rt (userOutput run) (correctOutput run) in
            languageName <~ lift (as_str language);
            let diffFile :=
              diff_path userOutputDirectory itemType languageName problem in
            _ <~ act (Fs.write diffFile diffContents);
            if openHTML then tell (Fs.browse diffFile) else M_ret tt
          else M_ret tt);
    M_ret numCorrectRuns
  else M_ret (S numCorrectRuns).

(** The body of [for languageBlock in languages['languages']]; the
    counters are [(numSolutions, numCorrectSolutions)]. *)
Definition try_language (problem : Z) (user userPath userOutputDirectory : string)
    (sampleFile : string) (inputFileList : list string)
    (generateHTML openHTML : bool) (possibleSolution : string)
    (counts : nat * nat) (languageBlock : LanguageBlock) : M (nat * nat) :=
  extension <~ lift (e <- get_source_extension languageBlock; as_str e);
  if bool_decide (possibleSolution = problem_string problem +:+ "." +:+ extension)
  then
    convertedLanguageBlock <~
      lift (replace_language_vars languageBlock possibleSolution userPath);
    let numSolutions := S (counts.1) in
    compiled <~ compile_solution convertedLanguageBlock;
    if compiled
    then
      runs <~ run_solution convertedLanguageBlock userOutputDirectory inputFileList;
      numCorrectRuns <~
        for_each (check_run problem user convertedLanguageBlock sampleFile
                    userOutputDirectory generateHTML openHTML) 0%nat runs;
      if bool_decide (numCorrectRuns = length runs)
      then M_ret (numSolutions, S (counts.2))
      else M_ret (numSolutions, counts.2)
    else M_ret (numSolutions, counts.2)
  else M_ret counts.

Definition user_path (user : string) : string := OsPath.join (here cfg) user.
Definition user_output_path (user : string) : string :=
  OsPath.join (user_path user) (user_output_directory defs).
Definition writers_path : string := OsPath.join (here cfg) (writers_directory defs).
Definition test_path : string := OsPath.join (here cfg) (test_directory defs).

(** The input files [test_solution] runs a solution on. *)
Definition input_file_list (problem : Z) (skipSample skipCorner : bool) : M (list string) :=
  let sampleFile :=
    case_path test_path problem (sample_case_extension defs) (input_file_ending defs) in
  let cornerFile :=
    case_path test_path problem (corner_case_extension defs) (input_file_ending defs) in
  let generatedFile :=
    case_path test_path problem (generated_case_extension defs) (input_file_ending defs) in
  hasSample <~ ask (Fs.isfile sampleFile);
  hasCorner <~ ask (Fs.isfile cornerFile);
  hasGenerated <~ ask (Fs.isfile generatedFile);
  M_ret ((if negb skipSample && hasSample then [sampleFile] else [])
         ++ (if negb skipCorner && hasCorner then [cornerFile] else [])
         ++ (if hasGenerated then [generatedFile] else [])).

(** [test_solution] *)
Definition test_solution (problem : Z) (user : string)
    (skipSample skipCorner generateHTML openHTML : bool) : M bool :=
  let userPath := user_path user in
  let userOutputDirectory := user_output_path user in
  isDirectory <~ ask (Fs.isdir userPath);
  isWriter <~ ask (Fs.islink (OsPath.join writers_path user));
  if negb isDirectory || negb isWriter
  then
    _ <~ tell (Fs.print (user +:+ " is not a valid user"));
    M_ret false
  else
    hasOutputDirectory <~ ask (Fs.isdir userOutputDirectory);
    _ <~ (if negb hasOutputDirectory
          then act (Fs.makedirs userOutputDirectory) else M_ret tt);
    let sampleFile :=
      case_path test_path problem (sample_case_extension defs) (input_file_ending defs) in
    inputFileList <~ input_file_list problem skipSample skipCorner;
    entries <~ (λ w, (Fs.listdir userPath w, w));
    counts <~
      for_each (λ counts possibleSolution,
          for_each (try_language problem user userPath userOutputDirectory
                      sampleFile inputFileList generateHTML openHTML
                      possibleSolution)
            counts (languages cfg))
        (0%nat, 0%nat) entries;
    if bool_decide (counts.1 = 0%nat)
    then
      _ <~ tell (Fs.print (user +:+ " Does not have problem "
                            +:+ PyStr.of_int problem +:+ "!"));
      M_ret false
    else if bool_decide (counts.2 = counts.1) then M_ret true
    else M_ret false.

(** The path [compare_generated_outputs] reads for a user. *)
Definition generated_path (problem : Z) (user : string) : string :=
  case_path (user_path user) problem (generated_case_extension defs)
    (output_file_ending defs).

(** The loop of [compare_generated_outputs]; [lastUser] is [None] for
    [(None, None)]. *)
Fixpoint compare_from (problem : Z) (lastUser : option (string * string))
    (users : list string) : M bool :=
  match users with
  | [] => M_ret true
  | user :: rest =>
      let generatedPath := generated_path problem user in
      present <~ ask (Fs.isfile generatedPath);
      output <~ (if negb present then M_ret "" else read_file generatedPath);
      match lastUser with
      | None => compare_from problem (Some (user, output)) rest
      | Some (lastName, lastOutput) =>
          if negb (bool_decide (output = lastOutput))
          then
            _ <~ tell (Fs.print ("FAILED GENERATED: " +:+ lastName +:+ "'s problem "
                                  +:+ PyStr.of_int problem +:+ " doesn't match "
                                  +:+ user +:+ "'s"));
            M_ret false
          else compare_from problem (Some (user, output)) rest
      end
  end.

(** [compare_generated_outputs] *)
Definition compare_generated_outputs (problem : Z) (users : list string) : M bool :=
  compare_from problem None users.

Definition final_directory : string := OsPath.join (here cfg) (finalio_directory defs).

(** [copyList] of [copy_to_final_io] *)
Definition copy_list (problem : Z) (user : string) : list string :=
  [ case_path test_path problem (sample_case_extension defs) (input_file_ending defs);
    case_path test_path problem (sample_case_extension defs) (output_file_ending defs);
    case_path test_path problem (corner_case_extension defs) (input_file_ending defs);
    case_path test_path problem (corner_case_extension defs) (output_file_ending defs);
    case_path test_path problem (generated_case_extension defs) (input_file_ending defs);
    case_path (OsPath.join (user_path user) (user_output_directory defs)) problem
      (generated_case_extension defs) (output_file_ending defs) ].

(** [copy_to_final_io] *)
Definition copy_to_final_io (problem : Z) (user : string) : M bool :=
  let copyList := copy_list problem user in
  allPresent <~ ask (λ w, forallb (λ fileToCopy, Fs.isfile fileToCopy w) copyList);
  if negb allPresent then M_ret false
  else
    hasFinal <~ ask (Fs.isdir final_directory);
    _ <~ (if negb hasFinal then act (Fs.makedirs final_directory) else M_ret tt);
    _ <~ for_each (λ _ fileToCopy, act (Fs.copy fileToCopy final_directory))
           tt copyList;
    M_ret true.

End Script.

(** ** The top-level loop *)

Section Driver.
Context {S : Type}.
Variable test : Z → string → StE S bool.
Variable compare : Z → list string → StE S bool.
Variable finalize : Z → string → StE S bool.
Variable say : string → StE S unit.

(** The body of [for problem in problemsToDo]. *)
Definition drive_problem (peopleToTest : list string) (problem : Z) : StE S unit :=
  passingPeople <~
    for_each (λ passingPeople person,
        passed <~ test problem person;
        M_ret (if passed then Datatypes.S passingPeople else passingPeople))
      0%nat peopleToTest;
  if bool_decide (passingPeople = length peopleToTest)
  then
    consistent <~ compare problem peopleToTest;
    if consistent
    then
      representative <~
        lift (match peopleToTest with
              | person :: _ => Ok person
              | [] => Raise IndexError
              end);
      copied <~ finalize problem representative;
      if negb copied
      then say "Error copying files to the FinalIO directory"
      else M_ret tt
    else M_ret tt
  else M_ret tt.

Definition drive (problemsToDo : list Z) (peopleToTest : list string) : StE S unit :=
  for_each (λ _ problem, drive_problem peopleToTest problem) tt problemsToDo.
End Driver.

(** The loop at the end of [test.py], with the parsed arguments. *)
Definition main (cfg : Config) (rt : Runtime)
    (skipsample skipcorner htmldiffs openhtml : bool)
    (problemsToDo : list Z) (peopleToTest : list string) : M unit :=
  drive
    (λ problem person,
       test_solution cfg rt problem person skipsample skipcorner htmldiffs openhtml)
    (compare_generated_outputs cfg)
    (copy_to_final_io cfg)
    (λ line, tell (Fs.print line))
    problemsToDo peopleToTest.

(** ** A concrete installation

    A small configuration, a toy process oracle and a few stores, on which
    the script is evaluated below. *)

Module Scenario.

Definition vars : Variables := {|
  var_filename := "{filename}";
  var_filename_less_extension := "{filename_less_extension}";
  var_directory := "{directory}";
  var_problem_number := "{problem}";
  var_case_type := "{case_type}";
  var_language := "{language}" |}.

Definition defs : Definitions := {|
  solution_naming := "Problem{problem}";
  user_output_directory := "output";
  writers_directory := "writers";
  test_directory := "tests";
  finalio_directory := "FinalIO";
  sample_case_extension := "_sample";
  corner_case_extension := "_corner";
  generated_case_extension := "_generated";
  input_file_ending := "in";
  output_file_ending := "out";
  html_diff_naming := "diff_{case_type}_{language}_{problem}.html" |}.

Definition python : LanguageBlock :=
  list_to_map [
    ("language", VStr "Python");
    ("runExtension", VStr "py");
    ("runCommand", VStr "python3");
    ("runArguments", VList [VStr "{directory}/{filename}"]) ].

Definition c_lang : LanguageBlock :=
  list_to_map [
    ("language", VStr "C");
    ("compileExtension", VStr "c");
    ("runExtension", VStr "out");
    ("compileCommand", VStr "gcc");
    ("compileArguments", VList [VStr "{directory}/{filename}"]);
    ("runCommand", VStr "run");
    ("runArguments", VList [VStr "{directory}/{filename}"]) ].

Definition cfg : Config := {|
  here := "/repo";
  definitions := defs;
  variables := vars;
  languages := [python; c_lang] |}.

Definition stdin_text (stdin : option string) (w : Fs.world) : string :=
  match stdin with
  | Some path => match Fs.read path w with Ok text => text | Raise _ => "" end
  | None => ""
  end.

(** The toy oracle: [gcc] accepts every source but ["syntax error"]; any
    other command runs the program named by its argument, where the
    program ["cat"] copies its input, ["fail"] exits with status 1 and
    any other text prints itself. No process touches the store. *)
Definition toy_spawn (argv : list string) (stdin : option string) (w : Fs.world)
    : proc_outcome * Fs.world :=
  match argv with
  | [command; program] =>
      match Fs.read program w with
      | Ok source =>
          if bool_decide (command = "gcc")
          then (Exited (if bool_decide (source = "syntax error") then 1 else 0) "", w)
          else if bool_decide (source = "cat") then (Exited 0 (stdin_text stdin w), w)
          else if bool_decide (source = "fail") then (Exited 1 "", w)
          else (Exited 0 source, w)
      | Raise _ => (SpawnError, w)
      end
  | _ => (SpawnError, w)
  end.

Definition rt : Runtime := {|
  spawn := toy_spawn;
  py_repr := λ _, "<value>";
  html_diff := λ actual expected, actual +:+ "<>" +:+ expected |}.

Definition store (contents : list (list string * string)) (users : list string)
    : Fs.world := {|
  Fs.files := list_to_map contents;
  Fs.dirs := list_to_set ([["repo"]; ["repo"; "tests"]; ["repo"; "writers"]]
                          ++ ((λ u, ["repo"; u]) <$> users)
                          ++ ((λ u, ["repo"; u; "output"]) <$> users));
  Fs.links := list_to_set ((λ u, ["repo"; "writers"; u]) <$> users);
  Fs.stdout := [];
  Fs.browser := [] |}.

(** Sample case with its expected output, and a generated case. *)
Definition tests : list (list string * string) := [
  (["repo"; "tests"; "Problem1_sample.in"], "5");
  (["repo"; "tests"; "Problem1_sample.out"], "5");
  (["repo"; "tests"; "Problem1_generated.in"], "7") ].

(** The language block of alice's Python solution, after substitution. *)
Definition alice_python : LanguageBlock :=
  list_to_map [
    ("language", VStr "Python");
    ("runExtension", VStr "py");
    ("runCommand", VStr "python3");
    ("runArguments", VList [VStr "/repo/alice/Problem1.py"]) ].

Definition alice_command : list pyval :=
  [VStr "python3"; VStr "/repo/alice/Problem1.py"].

Definition sample_in : string := "/repo/tests/Problem1_sample.in".
Definition generated_in : string := "/repo/tests/Problem1_generated.in".

(** alice's solution copies its input. *)
Definition alice_cat : Fs.world :=
  store ((["repo"; "alice"; "Problem1.py"], "cat") :: tests) ["alice"].

(** alice's solution exits with status 1. *)
Definition alice_fails : Fs.world :=
  store ((["repo"; "alice"; "Problem1.py"], "fail") :: tests) ["alice"].

(** The same installation with the users' output directory configured
    as the absolute path of alice's own directory. *)
Definition cfg_absolute : Config := {|
  here := "/repo";
  definitions := {|
    solution_naming := "Problem{problem}";
    user_output_directory := "/repo/alice";
    writers_directory := "writers";
    test_directory := "tests";
    finalio_directory := "FinalIO";
    sample_case_extension := "_sample";
    corner_case_extension := "_corner";
    generated_case_extension := "_generated";
    input_file_ending := "in";
    output_file_ending := "out";
    html_diff_naming := "diff_{case_type}_{language}_{problem}.html" |};
  variables := vars;
  languages := [python; c_lang] |}.

(** A language block with a field that is a number. *)
Definition python_with_timeout : LanguageBlock :=
  <["timeout" := VInt 5]> python.

(** Placeholders spelled without delimiters: one is the beginning of
    another. *)
Definition bare_vars : Variables := {|
  var_filename := "filename";
  var_filename_less_extension := "filename_less_extension";
  var_directory := "directory";
  var_problem_number := "problem";
  var_case_type := "case_type";
  var_language := "language" |}.

Definition cfg_bare : Config := {|
  here := "/repo";
  definitions := defs;
  variables := bare_vars;
  languages := [python; c_lang] |}.

(** Sample and corner cases with expected outputs, and a generated case. *)
Definition full_tests : list (list string * string) := [
  (["repo"; "tests"; "Problem1_sample.in"], "5");
  (["repo"; "tests"; "Problem1_sample.out"], "5");
  (["repo"; "tests"; "Problem1_corner.in"], "5");
  (["repo"; "tests"; "Problem1_corner.out"], "5");
  (["repo"; "tests"; "Problem1_generated.in"], "7") ].

(** alice's solution copies its input, bob's always prints 5: they agree
    on the sample and corner cases and differ on the generated case. *)
Definition alice_and_bob : Fs.world :=
  store ((["repo"; "alice"; "Problem1.py"], "cat")
         :: (["repo"; "bob"; "Problem1.py"], "5") :: full_tests)
    ["alice"; "bob"].



End Scenario.

(** ** Reference behaviours the script is compared with *)

(** What [check_run] does for a mismatching run labelled [itemType], when
    the language name is a string. *)
Definition reported (cfg : Config) (rt : Runtime) (itemType user : string) (problem : Z) (language : string)
    (userOutputDirectory : string) (generateHTML openHTML : bool)
    (numCorrectRuns : nat) (run : Run) (w : Fs.world) : res nat * Fs.world :=
  let w1 := Fs.print (failed_line rt itemType user problem (VStr language)) w in
  let diffFile := diff_path cfg userOutputDirectory itemType language problem in
  if generateHTML
  then
    match Fs.write diffFile (html_diff rt (userOutput run) (correctOutput run)) w1 with
    | Ok w2 => (Ok numCorrectRuns, if openHTML then Fs.browse diffFile w2 else w2)
    | Raise e => (Raise e, w1)
    end
  else (Ok numCorrectRuns, w1).

(** The text [compare_generated_outputs] takes as a user's generated-case
    output: what a text-mode read of the file it looks for gives, or the
    empty string. *)
Definition generated_output (cfg : Config) (problem : Z) (user : string)
    (w : Fs.world) : string :=
  match Fs.files w !! Fs.resolve (generated_path cfg problem user) with
  | Some text => PyStr.universal_newlines text
  | None => ""
  end.

Definition mismatch_line (lastName : string) (problem : Z) (user : string) : string :=
  "FAILED GENERATED: " +:+ lastName +:+ "'s problem " +:+ PyStr.of_int problem
    +:+ " doesn't match " +:+ user +:+ "'s".

(** The generated-case input of a problem, and the path under which the
    run stage of [test_solution] saves what a user's solution prints for
    it. *)
Definition generated_input (cfg : Config) (problem : Z) : string :=
  case_path cfg (test_path cfg) problem
    (generated_case_extension (definitions cfg)) (input_file_ending (definitions cfg)).

(** The sample and corner-case inputs of a problem. *)
Definition sample_input (cfg : Config) (problem : Z) : string :=
  case_path cfg (test_path cfg) problem
    (sample_case_extension (definitions cfg)) (input_file_ending (definitions cfg)).

Definition corner_input (cfg : Config) (problem : Z) : string :=
  case_path cfg (test_path cfg) problem
    (corner_case_extension (definitions cfg)) (input_file_ending (definitions cfg)).

(** The cases to run: of the sample, corner and generated cases, in that
    order, those that are not skipped and whose input file exists; the
    generated case cannot be skipped. *)
Definition wanted_inputs (cfg : Config) (problem : Z) (skipSample skipCorner : bool)
    (w : Fs.world) : list string :=
  omap (λ case_, if negb case_.2 && Fs.isfile case_.1 w then Some case_.1 else None)
    [ (sample_input cfg problem, skipSample);
      (corner_input cfg problem, skipCorner);
      (generated_input cfg problem, false) ].

Definition saved_generated_path (cfg : Config) (problem : Z) (user : string) : string :=
  save_path (user_output_path cfg user)
    (expected_output_path cfg (generated_input cfg problem)).

(** An ordinary file or directory name. *)
Definition plain_name (c : string) : Prop :=
  c ≠ "" ∧ c ≠ "." ∧ c ≠ ".." ∧ PyStr.has_char "/" c = false.

(** *** A trace of the calls of the top-level loop

    The three stages, wrapped so that each call is recorded together with
    what it returned or raised; the store itself is handled as before. *)
Inductive event : Type :=
  | Tested (person : string) (outcome : res bool)
  | Compared (users : list string) (outcome : res bool)
  | Finalized (user : string) (outcome : res bool).

Abbreviation traced := (StE (Fs.world * list event)).

Definition logged {A} (record : res A → event) (m : M A) : traced A :=
  λ s, let '(r, w') := m s.1 in (r, (w', s.2 ++ [record r])).

Definition unlogged {A} (m : M A) : traced A :=
  λ s, let '(r, w') := m s.1 in (r, (w', s.2)).

Definition is_test (ev : event) : Prop :=
  match ev with
  | Tested _ _ => True
  | _ => False
  end.

(** A recorded step does to the store, and returns, what the plain step
    does. *)
Definition erases {A} (m' : traced A) (m : M A) : Prop :=
  ∀ w log, (m' (w, log)).1 = (m w).1 ∧ (m' (w, log)).2.1 = (m w).2.

(** The body of the top-level loop over the recorded stages. *)
Definition traced_problem (cfg : Config) (rt : Runtime)
    (skipsample skipcorner htmldiffs openhtml : bool)
    (peopleToTest : list string) (problem : Z) : traced unit :=
  drive_problem
    (λ problem person,
       logged (Tested person)
         (test_solution cfg rt problem person skipsample skipcorner htmldiffs openhtml))
    (λ problem users, logged (Compared users) (compare_generated_outputs cfg problem users))
    (λ problem user, logged (Finalized user) (copy_to_final_io cfg problem user))
    (λ line, unlogged (tell (Fs.print line)))
    peopleToTest problem.

(** The same body as [main] runs it. *)
Definition main_problem (cfg : Config) (rt : Runtime)
    (skipsample skipcorner htmldiffs openhtml : bool)
    (peopleToTest : list string) (problem : Z) : M unit :=
  drive_problem
    (λ problem person,
       test_solution cfg rt problem person skipsample skipcorner htmldiffs openhtml)
    (compare_generated_outputs cfg)
    (copy_to_final_io cfg)
    (λ line, tell (Fs.print line))
    peopleToTest problem.

(** *** The promotion of the final artifacts *)






(** *** Substitution in a language block *)

Definition is_str (v : pyval) : bool :=
  match v with
  | VStr _ => true
  | _ => false
  end.

(** A field that is a string or a list of strings. *)
Definition strings_only (v : pyval) : bool :=
  match v with
  | VStr _ => true
  | VList items => forallb is_str items
  | _ => false
  end.

(** Placeholder replacement in every string and in every string of a
    list, anything else passed through unchanged. *)
Definition substituted_entry (cfg : Config) (problemFile directory : string)
    (v : pyval) : pyval :=
  match v with
  | VStr s => VStr (replace_vars_in cfg s problemFile directory)
  | other => other
  end.

Definition substituted (cfg : Config) (problemFile directory : string)
    (v : pyval) : pyval :=
  match v with
  | VStr s => VStr (replace_vars_in cfg s problemFile directory)
  | VList items => VList (substituted_entry cfg problemFile directory <$> items)
  | other => other
  end.

(** The three placeholders of a command template, and their replacement
    one at a time in a chosen order. *)
Inductive placeholder : Type :=
  | Filename
  | FilenameLessExtension
  | Directory.

Definition substitute_one (cfg : Config) (problemFile directory : string)
    (s : string) (which : placeholder) : string :=
  match which with
  | Filename => PyStr.replace (var_filename (variables cfg)) problemFile s
  | FilenameLessExtension =>
      PyStr.replace (var_filename_less_extension (variables cfg))
        (OsPath.splitext problemFile).1 s
  | Directory => PyStr.replace (var_directory (variables cfg)) directory s
  end.

Definition substitute_in_order (cfg : Config) (problemFile directory : string)
    (order : list placeholder) (s : string) : string :=
  foldl (substitute_one cfg problemFile directory) s order.

(** Neither string is the beginning of the other. *)
Definition unrelated (x y : string) : Prop :=
  PyStr.startswith x y = false ∧ PyStr.startswith y x = false.

(** *** Occurrences of a placeholder *)

(** [old in s] *)
Fixpoint occurs (old s : string) : bool :=
  PyStr.startswith old s
  || match s with
     | EmptyString => false
     | String _ s' => occurs old s'
     end.

(** *** The attempts behind the verdict of [test_solution]

    What the nested loops of [test_solution] do, told as the list of the
    attempts they make instead of the two counters: an attempt is a file
    of the user's directory named after the problem with the source
    extension of a language; it either fails to compile or is run, and
    its runs are then reported. *)
Inductive attempt : Type :=
  | CompileFailed
  | Ran (runs : list Run).

Definition run_matches (run : Run) : bool :=
  bool_decide (userOutput run = correctOutput run).

Definition attempt_correct (a : attempt) : bool :=
  match a with
  | CompileFailed => false
  | Ran runs => forallb run_matches runs
  end.

(** The counters [(numSolutions, numCorrectSolutions)] of a list of
    attempts. *)
Definition tally (found : list attempt) : nat * nat :=
  (length found, length (filter (λ a, attempt_correct a = true) found)).

Definition collect_language (cfg : Config) (rt : Runtime)
    (problem : Z) (user userPath userOutputDirectory : string)
    (sampleFile : string) (inputFileList : list string)
    (generateHTML openHTML : bool) (possibleSolution : string)
    (found : list attempt) (languageBlock : LanguageBlock) : M (list attempt) :=
  extension <~ lift (e <- get_source_extension languageBlock; as_str e);
  if bool_decide (possibleSolution = problem_string cfg problem +:+ "." +:+ extension)
  then
    convertedLanguageBlock <~
      lift (replace_language_vars cfg languageBlock possibleSolution userPath);
    compiled <~ compile_solution rt convertedLanguageBlock;
    if compiled
    then
      runs <~ run_solution cfg rt convertedLanguageBlock userOutputDirectory
                inputFileList;
      _ <~ for_each (check_run cfg rt problem user convertedLanguageBlock sampleFile
                       userOutputDirectory generateHTML openHTML) 0%nat runs;
      M_ret (found ++ [Ran runs])
    else M_ret (found ++ [CompileFailed])
  else M_ret found.

(** The attempts of a valid user, [None] for a user that is not valid. *)
Definition found_attempts (cfg : Config) (rt : Runtime) (problem : Z) (user : string)
    (skipSample skipCorner generateHTML openHTML : bool) : M (option (list attempt)) :=
  let userPath := user_path cfg user in
  let userOutputDirectory := user_output_path cfg user in
  isDirectory <~ ask (Fs.isdir userPath);
  isWriter <~ ask (Fs.islink (OsPath.join (writers_path cfg) user));
  if negb isDirectory || negb isWriter
  then
    _ <~ tell (Fs.print (user +:+ " is not a valid user"));
    M_ret None
  else
    hasOutputDirectory <~ ask (Fs.isdir userOutputDirectory);
    _ <~ (if negb hasOutputDirectory
          then act (Fs.makedirs userOutputDirectory) else M_ret tt);
    let sampleFile :=
      case_path cfg (test_path cfg) problem
        (sample_case_extension (definitions cfg)) (input_file_ending (definitions cfg)) in
    inputFileList <~ input_file_list cfg problem skipSample skipCorner;
    entries <~ (λ w, (Fs.listdir userPath w, w));
    found <~
      for_each (λ found possibleSolution,
          for_each (collect_language cfg rt problem user userPath userOutputDirectory
                      sampleFile inputFileList generateHTML openHTML
                      possibleSolution)
            found (languages cfg))
        [] entries;
    M_ret (Some found).

(** The verdict [test_solution] draws from the attempts. *)
Definition verdict (problem : Z) (user : string) (found : option (list attempt))
    : M bool :=
  match found with
  | None => M_ret false
  | Some [] =>
      _ <~ tell (Fs.print (user +:+ " Does not have problem "
                            +:+ PyStr.of_int problem +:+ "!"));
      M_ret false
  | Some attempts => M_ret (forallb attempt_correct attempts)
  end.

(** *** More stores and blocks of the concrete installation *)

Module Cases.

(** The language block of carol's C solution, after substitution. *)
Definition carol_c : LanguageBlock :=
  list_to_map [
    ("language", VStr "C");
    ("compileExtension", VStr "c");
    ("runExtension", VStr "out");
    ("compileCommand", VStr "gcc");
    ("compileArguments", VList [VStr "/repo/carol/Problem1.c"]);
    ("runCommand", VStr "run");
    ("runArguments", VList [VStr "/repo/carol/Problem1.c"]) ].

(** carol's C solution does not compile. *)
Definition carol_broken : Fs.world :=
  Scenario.store ((["repo"; "carol"; "Problem1.c"], "syntax error")
                  :: Scenario.full_tests) ["carol"].

(** carol has a Python solution that copies its input and a C solution
    that does not compile. *)
Definition carol_two_solutions : Fs.world :=
  Scenario.store ((["repo"; "carol"; "Problem1.py"], "cat")
                  :: (["repo"; "carol"; "Problem1.c"], "syntax error")
                  :: Scenario.full_tests) ["carol"].

(** dave's directory holds no solution of problem 1. *)
Definition dave_nothing : Fs.world :=
  Scenario.store ((["repo"; "dave"; "notes.txt"], "todo") :: Scenario.full_tests)
    ["dave"].

(** erin's solution prints 5 whatever the input: right on the sample and
    corner cases. *)
Definition erin_five : Fs.world :=
  Scenario.store ((["repo"; "erin"; "Problem1.py"], "5") :: Scenario.full_tests)
    ["erin"].

(** A checkout with its three configuration files and nobody in the
    writers directory. *)
Definition configured : Fs.world :=
  Scenario.store [ (["repo"; "conf"; "definitions.json"], "{definitions}");
                   (["repo"; "conf"; "languages.json"], "{languages}");
                   (["repo"; "conf"; "variables.json"], "{variables}") ] [].

(** [int(s)] on the few strings used below. *)
Definition toy_int (s : string) : option Z :=
  if bool_decide (s = "2") then Some 2
  else if bool_decide (s = "3") then Some 3
  else if bool_decide (s = "4") then Some 4
  else None.





(** Line endings: a line feed, and a carriage return with a line feed. *)
Definition lf : string := String PyStr.LF "".
Definition crlf : string := String PyStr.CR (String PyStr.LF "").



(** The generated outputs [compare_generated_outputs] finds for heidi
    and ivan: heidi's ends with a carriage return and a line feed, ivan's
    with a line feed. *)
Definition heidi_and_ivan : Fs.world :=
  Scenario.store
    [ (["repo"; "heidi"; "Problem1_generated.out"], "7" +:+ crlf);
      (["repo"; "ivan"; "Problem1_generated.out"], "7" +:+ lf) ]
    ["heidi"; "ivan"].



End Cases.

(** A function applied to what a step returned. *)
Definition on_result {A B} (f : A → B) (x : res A * Fs.world) : res B * Fs.world :=
  match x with
  | (Ok a, w) => (Ok (f a), w)
  | (Raise e, w) => (Raise e, w)
  end.

(** ** The start of the script and its arguments *)

Module Startup.

(** How the lines of [test.py] before the testing loop end: [sys.exit],
    an unbound global name, or the three configuration texts read
    ([json.loads] is not modelled). The imports at the top of the file and
    [parser.parse_args()] are taken to succeed. *)
Inductive ending : Type :=
  | Exit (status : Z)
  | NameError (name : string)
  | Unreadable
  | Loaded (definitionContents languageContents variableContents : string).

Definition conf_directory (here : string) : string := OsPath.join here "conf".
Definition definitions_file (here : string) : string :=
  OsPath.join (conf_directory here) "definitions.json".
Definition languages_file (here : string) : string :=
  OsPath.join (conf_directory here) "languages.json".
Definition variables_file (here : string) : string :=
  OsPath.join (conf_directory here) "variables.json".

(** The global names bound when line 76 is reached: the modules and
    names imported at lines 20 to 29 and the names assigned at lines 36
    to 62. *)
Definition module_globals : list string :=
  [ "argparse"; "os"; "json"; "sys"; "subprocess"; "shutil"; "difflib";
    "webbrowser"; "test_validate_languages"; "test_validate_definitions";
    "CONF_DIRECTORY"; "DEFINITIONS_FILE"; "LANGUAGES_FILE"; "VARIABLES_FILE";
    "parser"; "args" ].

(** [if not args.skipvalidation and not <name>.run_tests(): print(..);
    sys.exit(1)]: [None] when the script goes on. Reading a name that is
    not bound raises; [run_tests] tells what the call would return for a
    bound name. *)
Definition validate (run_tests : string → bool) (skipvalidation : bool)
    (name message : string) (w : Fs.world) : option (ending * Fs.world) :=
  if skipvalidation then None
  else if negb (bool_decide (name ∈ module_globals)) then Some (NameError name, w)
  else if negb (run_tests name) then Some (Exit 1, Fs.print message w)
  else None.

Definition validation_message (which : string) : string :=
  "Validation tests for the " +:+ which +:+ " configuration file failed."
  +:+ " This means that there was an error within your conf/" +:+ which
  +:+ ".json file. Cannot continue".

(** The three [with open(..) as f: .. = f.read()] of lines 94 to 99. *)
Definition load (here : string) (w : Fs.world) : ending * Fs.world :=
  match Fs.read_text (definitions_file here) w with
  | Ok d =>
      match Fs.read_text (languages_file here) w with
      | Ok l =>
          match Fs.read_text (variables_file here) w with
          | Ok v => (Loaded d l v, w)
          | Raise _ => (Unreadable, w)
          end
      | Raise _ => (Unreadable, w)
      end
  | Raise _ => (Unreadable, w)
  end.

(** Lines 64 to 99: the three existence checks, the three validations
    guarded by [--skipvalidation], and the three reads. *)
Definition startup (run_tests : string → bool) (here : string)
    (skipvalidation : bool) (w : Fs.world) : ending * Fs.world :=
  if negb (Fs.isfile (definitions_file here) w)
  then (Exit 1, Fs.print ("Error: Definitions file " +:+ definitions_file here
                          +:+ " cannot be found.") w)
  else if negb (Fs.isfile (languages_file here) w)
  then (Exit 1, Fs.print ("Error: Langauges file " +:+ languages_file here
                          +:+ " cannot be found.") w)
  else if negb (Fs.isfile (variables_file here) w)
  then (Exit 1, Fs.print ("Error: Variables file " +:+ variables_file here
                          +:+ " cannot be found") w)
  else
    match validate run_tests skipvalidation "conf_languages"
            (validation_message "languages") w with
    | Some end_ => end_
    | None =>
        match validate run_tests skipvalidation "conf_definitions"
                (validation_message "definitions") w with
        | Some end_ => end_
        | None =>
            match validate run_tests skipvalidation "conf_variables"
                    (validation_message "variables") w with
            | Some end_ => end_
            | None => load here w
            end
        end
    end.

End Startup.

Module Args.

(** What the parsing of the [problem] argument gives: the list
    [problemsToDo], or the exception raised on the way. *)
Inductive parsed : Type :=
  | Problems (problemsToDo : list Z)
  | IndexErr
  | ValueErr.

(** [range(a, b)] *)
Definition range (a b : Z) : list Z := seqZ a (b - a).

(** [s.index(c)] when [c] is in [s] *)
Fixpoint index_of (c : ascii) (s : string) : nat :=
  match s with
  | EmptyString => 0
  | String a s' => if PyStr.ascii_eqb a c then 0 else S (index_of c s')
  end.

Section Parse.
(** [int(s)]: [None] is [ValueError]. *)
Variable py_int : string → option Z.

Definition with_int (s : string) (k : Z → parsed) : parsed :=
  match py_int s with
  | Some n => k n
  | None => ValueErr
  end.

(** Lines 338 to 354, for [arg = args.problem[0]]. *)
Definition problems_to_do (problemCount : Z) (arg : string) : parsed :=
  if bool_decide (arg = "a") then Problems (range 1 (problemCount + 1))
  else
    match arg with
    | EmptyString => IndexErr
    | String first rest =>
        if PyStr.ascii_eqb first "+" || PyStr.ascii_eqb first "-"
        then
          if PyStr.ascii_eqb first "+"
          then with_int rest (λ n, Problems (range (n + 1) (problemCount + 1)))
          else with_int rest (λ n, Problems (range 1 n))
        else if PyStr.has_char "-" arg
        then
          let dashIndex := index_of "-" arg in
          with_int (PyStr.take dashIndex arg) (λ a,
            with_int (PyStr.drop (S dashIndex) arg) (λ b,
              Problems (range a (b + 1))))
        else with_int arg (λ n, Problems [n])
    end.

End Parse.

(** Lines 356 to 364, for [names = args.name]. *)
Definition people_to_test (cfg : Config) (names : list string) : M (list string) :=
  match names with
  | [] => raise IndexError
  | first :: _ =>
      if bool_decide (first = "a")
      then
        let writersPath := writers_path cfg in
        entries <~ (λ w, (Fs.listdir writersPath w, w));
        M_ret (filter (λ person, person ≠ OsPath.basename writersPath) entries)
      else M_ret names
  end.

End Args.

(** ** [util/fileops.py] *)

Module FileOps.

(** [os.path.exists] *)
Definition path_exists (p : string) (w : Fs.world) : bool :=
  Fs.isfile p w || Fs.isdir p w.

Definition occupied (k : list string) (w : Fs.world) : bool :=
  bool_decide (is_Some (Fs.files w !! k)) || Fs.is_dir_key k w
  || bool_decide (k ∈ Fs.links w).

(** [os.mknod(p)] and [os.mkdir(p)]: the name must be free and its parent
    a directory. *)
Definition mknod (p : string) (w : Fs.world) : res Fs.world :=
  let k := Fs.resolve p in
  if occupied k w then Raise OSError
  else if Fs.is_dir_key (removelast k) w
       then Ok (Fs.set_files (<[k := ""]> (Fs.files w)) w)
       else Raise OSError.

Definition mkdir (p : string) (w : Fs.world) : res Fs.world :=
  let k := Fs.resolve p in
  if occupied k w then Raise OSError
  else if Fs.is_dir_key (removelast k) w
       then Ok (Fs.set_dirs ({[k]} ∪ Fs.dirs w) w)
       else Raise OSError.

(** [os.remove(p)] *)
Definition unlink (p : string) (w : Fs.world) : res Fs.world :=
  let k := Fs.resolve p in
  match Fs.files w !! k with
  | Some _ => Ok (Fs.set_files (delete k (Fs.files w)) w)
  | None => Raise OSError
  end.

Definition under (k : list string) (k' : list string) : Prop := k `prefix_of` k'.

(** [shutil.rmtree(p)]: refuses a symbolic link, and otherwise removes
    the directory with all that lies under it. *)
Definition rmtree (p : string) (w : Fs.world) : res Fs.world :=
  let k := Fs.resolve p in
  if bool_decide (k ∈ Fs.links w) || negb (Fs.is_dir_key k w) then Raise OSError
  else Ok (Fs.World
             (filter (λ kv, ¬ under k kv.1) (Fs.files w))
             (filter (λ k', ¬ under k k') (Fs.dirs w))
             (filter (λ k', ¬ under k k') (Fs.links w))
             (Fs.stdout w) (Fs.browser w)).

(** [FileType.FILE] and [FileType.DIRECTORY] *)
Definition FILE : Z := 0.
Definition DIRECTORY : Z := 1.

(** [exists(path, fileType)] *)
Definition exists_ (path : string) (fileType : Z) (w : Fs.world) : bool :=
  if negb (path_exists path w) then false
  else if bool_decide (fileType = FILE) then Fs.isfile path w
  else Fs.isdir path w.

(** [make(path, fileType)] *)
Definition make (path : string) (fileType : Z) : M bool :=
  present <~ ask (exists_ path fileType);
  if present then M_ret false
  else
    _ <~ (if bool_decide (fileType = FILE) then act (mknod path)
          else act (mkdir path));
    M_ret true.

(** [remove(path, fileType)] *)
Definition remove (path : string) (fileType : Z) : M bool :=
  present <~ ask (exists_ path fileType);
  if negb present then M_ret false
  else if bool_decide (fileType = FILE)
  then
    _ <~ act (unlink path);
    M_ret true
  else
    λ w, match rmtree path w with
         | Ok w' => (Ok true, w')
         | Raise _ => (Ok false, w)
         end.

(** [get_basename], [get_basename_less_extension], [get_extension] *)
Definition get_basename (path : string) : string := OsPath.basename path.

Definition get_basename_less_extension (path : string) : string :=
  (OsPath.splitext (OsPath.basename path)).1.

Definition get_extension (path : string) : string :=
  PyStr.drop 1 (OsPath.splitext (OsPath.basename path)).2.

(** [get_path_with_changed_extension] *)
Definition get_path_with_changed_extension (path newExtension : string) : string :=
  PyStr.replace ("." +:+ get_extension path) newExtension path.

End FileOps.

(** ** [util/writer.py] *)

Module Writer.

Section Solutions.
Context {Solution : Type}.

(** [self._solutions]: the solutions of each problem number. *)
Abbreviation solutions := (gmap Z (list Solution)).

(** [get_solutions] *)
Definition get_solutions (_solutions : solutions) (problemNumber : Z) : list Solution :=
  match _solutions !! problemNumber with
  | Some l => l
  | None => []
  end.

(** [get_all_solutions] *)
Definition get_all_solutions (_solutions : solutions) : list Solution :=
  foldl (λ totalSolutions solutionList, totalSolutions ++ solutionList) []
    ((map_to_list _solutions).*2).

End Solutions.

End Writer.

(** * Properties *)

(** ** Sanity checks of the string and path operations *)

Example replace_ex1 : PyStr.replace "ab" "X" "abcabab" = "XcXX".
Proof. reflexivity. Qed.
Example replace_ex2 : PyStr.replace "aa" "b" "aaaaa" = "bba".
Proof. reflexivity. Qed.
Example replace_ex3 : PyStr.replace "" "-" "abc" = "-a-b-c-".
Proof. reflexivity. Qed.
Example splitext_ex1 : OsPath.splitext "p1.py" = ("p1", ".py").
Proof. reflexivity. Qed.
Example splitext_ex2 : OsPath.splitext ".bashrc" = (".bashrc", "").
Proof. reflexivity. Qed.
Example splitext_ex3 : OsPath.splitext "a.b/c" = ("a.b/c", "").
Proof. reflexivity. Qed.
Example splitext_ex4 : OsPath.splitext "/x/..a.tar.gz" = ("/x/..a.tar", ".gz").
Proof. reflexivity. Qed.
Example join_ex1 : OsPath.join "/repo" "alice" = "/repo/alice".
Proof. reflexivity. Qed.
Example join_ex2 : OsPath.join "/repo/" "alice" = "/repo/alice".
Proof. reflexivity. Qed.
Example join_ex3 : OsPath.join "/repo" "/abs" = "/abs".
Proof. reflexivity. Qed.
Example basename_ex1 : OsPath.basename "/repo/tests/p1_sample.out" = "p1_sample.out".
Proof. reflexivity. Qed.
Example of_int_ex : PyStr.of_int 12 = "12" /\ PyStr.of_int (-3) = "-3".
Proof. split; reflexivity. Qed.
Example lower_ex : PyStr.lower "CORNER" = "corner".
Proof. reflexivity. Qed.

Example resolve_ex1 : Fs.resolve "/repo//alice/./out/../p1.py" = ["repo"; "alice"; "p1.py"].
Proof. reflexivity. Qed.
Example resolve_ex2 : Fs.resolve "/repo/alice/" = ["repo"; "alice"].
Proof. reflexivity. Qed.

(** ** Unfolding steps of the monad *)

Lemma M_bind_ok {S A B} (m : StE S A) (f : A → StE S B) w a w' :
  m w = (Ok a, w') → M_bind m f w = f a w'.
Proof. intros H. unfold M_bind. by rewrite H. Qed.

Lemma M_bind_raise {S A B} (m : StE S A) (f : A → StE S B) w e w' :
  m w = (Raise e, w') → M_bind m f w = (Raise e, w').
Proof. intros H. unfold M_bind. by rewrite H. Qed.

(** One step of a sequence whose first action is known to return. *)
Ltac step_ok tac := erewrite M_bind_ok by tac; cbv beta iota.

Lemma for_each_app {S A L} (body : L → A → StE S L) (s : L) (l1 l2 : list A) w :
  for_each body s (l1 ++ l2) w
  = M_bind (for_each body s l1) (λ s', for_each body s' l2) w.
Proof.
  revert s w. induction l1 as [|x l1 IH]; intros s w; simpl.
  - reflexivity.
  - unfold M_bind in *. destruct (body s x w) as [[s'|e] w']; [|reflexivity].
    apply IH.
Qed.

(** ** The run stage *)

Section RunStage.
Variable cfg : Config.
Variable rt : Runtime.


Lemma check_output_nonzero runCommand inputFile args status out w w1 :
  res_map as_str runCommand = Ok args →
  spawn rt args (Some inputFile) w = (Exited status out, w1) →
  status ≠ 0 →
  check_output rt runCommand inputFile w = (Ok None, w1).
Proof.
  intros Hargs Hspawn Hstatus. unfold check_output, run_process, M_bind, lift.
  rewrite Hargs, Hspawn. by rewrite bool_decide_false.
Qed.

(** A run that exits with a nonzero status while [output] is still
    unbound raises from the handler: no [Run] is recorded. *)
Lemma run_input_crash_unbound runCommand outputDirectory st inputFile
    args status out text w w1 :
  Fs.read inputFile w = Ok text →
  res_map as_str runCommand = Ok args →
  spawn rt args (Some inputFile) w = (Exited status out, w1) →
  status ≠ 0 →
  output st = None →
  run_input cfg rt runCommand outputDirectory st inputFile w
  = (Raise (UnboundLocalError "output"), w1).
Proof.
  intros Hread Hargs Hspawn Hstatus Hout. unfold run_input.
  step_ok ltac:(unfold read_file, Fs.read_text; rewrite Hread; reflexivity).
  step_ok ltac:(eapply check_output_nonzero; eauto).
  rewrite Hout. reflexivity.
Qed.

(** Once both locals are bound, a crashing run records a [Run] made of
    the values left by the last successful iteration, and the loop goes
    on. *)
Lemma run_input_crash_stale runCommand outputDirectory st inputFile
    args status out text o e w w1 :
  Fs.read inputFile w = Ok text →
  res_map as_str runCommand = Ok args →
  spawn rt args (Some inputFile) w = (Exited status out, w1) →
  status ≠ 0 →
  output st = Some o →
  outputFileContents st = Some e →
  run_input cfg rt runCommand outputDirectory st inputFile w
  = (Ok (mkLocals (Some o) (Some e) (results st ++ [mkRun o e inputFile])), w1).
Proof.
  intros Hread Hargs Hspawn Hstatus Hout Hexp. unfold run_input.
  step_ok ltac:(unfold read_file, Fs.read_text; rewrite Hread; reflexivity).
  step_ok ltac:(eapply check_output_nonzero; eauto).
  rewrite Hout, Hexp. reflexivity.
Qed.


End RunStage.



(** C3. When the very first input makes the run command exit with a
    nonzero status, [run_solution] does not record a [Run] and does not
    go on to the next input: reading the unbound [output] in the handler
    raises, and the exception leaves [run_solution] and [test_solution]. *)
Theorem run_solution_first_input_crash :
  run_solution Scenario.cfg Scenario.rt Scenario.alice_python "/repo/alice/output"
    [Scenario.sample_in; Scenario.generated_in] Scenario.alice_fails
  = (Raise (UnboundLocalError "output"), Scenario.alice_fails)
  ∧ test_solution Scenario.cfg Scenario.rt 1 "alice" false false false false
      Scenario.alice_fails
    = (Raise (UnboundLocalError "output"), Scenario.alice_fails).
Proof. split; vm_compute; reflexivity. Qed.

(** ** The reports of a mismatching run *)

Section Reports.
Variable cfg : Config.
Variable rt : Runtime.

Lemma item_type_sample run sampleFile :
  item_type run sampleFile = "SAMPLE" ↔ inputFile run = sampleFile.
Proof.
  unfold item_type. case_bool_decide; split; intros; done.
Qed.

(** C10. A mismatching run whose input file is not the sample-case file,
    the generated case included, is reported as CORNER and its diff file
    is named with [corner]; SAMPLE labels the sample-case input only. *)
Theorem check_run_corner_label problem user convertedLanguageBlock sampleFile
    userOutputDirectory generateHTML openHTML numCorrectRuns run language w :
  userOutput run ≠ correctOutput run →
  inputFile run ≠ sampleFile →
  getitem convertedLanguageBlock "language" = Ok (VStr language) →
  item_type run sampleFile = "CORNER"
  ∧ check_run cfg rt problem user convertedLanguageBlock sampleFile
      userOutputDirectory generateHTML openHTML numCorrectRuns run w
    = reported cfg rt "CORNER" user problem language userOutputDirectory
        generateHTML openHTML numCorrectRuns run w
  ∧ failed_line rt "CORNER" user problem (VStr language)
    = "FAILED CORNER: " +:+ user +:+ "'s problem " +:+ PyStr.of_int problem
        +:+ " solution in " +:+ language
  ∧ diff_path cfg userOutputDirectory "CORNER" language problem
    = OsPath.join userOutputDirectory
        (PyStr.replace (var_problem_number (variables cfg)) (PyStr.of_int problem)
           (PyStr.replace (var_language (variables cfg)) language
              (PyStr.replace (var_case_type (variables cfg)) "corner"
                 (html_diff_naming (definitions cfg)))))
  ∧ (∀ other, item_type other sampleFile = "SAMPLE" → inputFile other = sampleFile).
Proof.
  intros Hdiff Hinput Hlanguage.
  assert (item_type run sampleFile = "CORNER") as Hlabel.
  { unfold item_type. by rewrite bool_decide_false. }
  split; [exact Hlabel|]. split; [|split; [reflexivity|split; [reflexivity|]]].
  - unfold check_run, reported. rewrite Hlabel.
    rewrite bool_decide_false by exact Hdiff. simpl.
    unfold M_bind, lift, tell, act, M_ret. rewrite Hlanguage. simpl.
    destruct generateHTML; [|reflexivity]. simpl.
    destruct (Fs.write _ _ _) as [w2|e]; [|reflexivity].
    destruct openHTML; reflexivity.
  - intros other. apply item_type_sample.
Qed.

End Reports.

Lemma check_run_corner_label_witness :
  item_type (mkRun "7" "8" Scenario.generated_in) Scenario.sample_in = "CORNER"
  ∧ (check_run Scenario.cfg Scenario.rt 1 "alice" Scenario.alice_python
       Scenario.sample_in "/repo/alice/output" true false 0%nat
       (mkRun "7" "8" Scenario.generated_in) Scenario.alice_cat).1 = Ok 0%nat
  ∧ Fs.stdout
      (check_run Scenario.cfg Scenario.rt 1 "alice" Scenario.alice_python
         Scenario.sample_in "/repo/alice/output" true false 0%nat
         (mkRun "7" "8" Scenario.generated_in) Scenario.alice_cat).2
    = ["FAILED CORNER: alice's problem 1 solution in Python"]
  ∧ Fs.files
      (check_run Scenario.cfg Scenario.rt 1 "alice" Scenario.alice_python
         Scenario.sample_in "/repo/alice/output" true false 0%nat
         (mkRun "7" "8" Scenario.generated_in) Scenario.alice_cat).2
      !! ["repo"; "alice"; "output"; "diff_corner_Python_1.html"] = Some "7<>8".
Proof.
  destruct (check_run_corner_label Scenario.cfg Scenario.rt 1 "alice"
              Scenario.alice_python Scenario.sample_in "/repo/alice/output"
              true false 0%nat (mkRun "7" "8" Scenario.generated_in) "Python"
              Scenario.alice_cat) as (Hlabel & Hrun & _).
  - discriminate.
  - discriminate.
  - reflexivity.
  - split; [exact Hlabel|]. rewrite Hrun. vm_compute. auto.
Defined.

(** ** The cross-user consistency check *)

Section Consistency.
Variable cfg : Config.
Variable problem : Z.

Abbreviation out := (generated_output cfg problem).

Lemma compare_from_read user w :
  M_bind (ask (Fs.isfile (generated_path cfg problem user)))
    (λ present, if negb present then M_ret ""
                else read_file (generated_path cfg problem user)) w
  = (Ok (out user w), w).
Proof.
  unfold M_bind, ask, M_ret, read_file, Fs.isfile, Fs.read_text, Fs.read,
    generated_output.
  destruct (Fs.files w !! _) as [text|] eqn:H.
  - rewrite bool_decide_true by eauto. simpl. by rewrite H.
  - rewrite bool_decide_false by (intros [? ?]; discriminate). reflexivity.
Qed.

Lemma compare_from_cons lastUser user rest w :
  compare_from cfg problem lastUser (user :: rest) w
  = match lastUser with
    | None => compare_from cfg problem (Some (user, out user w)) rest w
    | Some (lastName, lastOutput) =>
        if bool_decide (out user w = lastOutput)
        then compare_from cfg problem (Some (user, out user w)) rest w
        else (Ok false, Fs.print (mismatch_line lastName problem user) w)
    end.
Proof.
  simpl. unfold M_bind at 1.
  pose proof (compare_from_read user w) as Hread. unfold M_bind in Hread.
  destruct (ask _ w) as [[present|e] w1] eqn:Hask; [|discriminate].
  unfold ask in Hask. injection Hask as <- <-.
  unfold M_bind at 1. rewrite Hread.
  destruct lastUser as [[lastName lastOutput]|]; [|reflexivity].
  case_bool_decide; reflexivity.
Qed.

(** Relative to the files it reads, the loop is right: it answers true,
    leaving the store alone, exactly when every output equals the running
    last one. *)
Lemma compare_from_some_true lastName lastOutput users w :
  compare_from cfg problem (Some (lastName, lastOutput)) users w = (Ok true, w)
  ↔ Forall (λ u, out u w = lastOutput) users.
Proof.
  revert lastName. induction users as [|user rest IH]; intros lastName.
  - simpl. unfold M_ret. split; [constructor|done].
  - rewrite compare_from_cons, Forall_cons. case_bool_decide as Heq.
    + rewrite Heq, IH. tauto.
    + split; [discriminate|tauto].
Qed.

(** X18. [compare_generated_outputs] returns true, leaving the store and
    the console as they are, exactly when the texts it takes for the
    users (what a text-mode read of the file it looks for gives, with
    every line ending read as a line feed, or the empty string when there
    is no file) are all equal; so it does for no user, for one user, for
    users who all lack the file, and for users whose files differ only in
    their line endings. *)
Lemma compare_generated_outputs_true users w :
  compare_generated_outputs cfg problem users w = (Ok true, w)
  ↔ ∀ u v, u ∈ users → v ∈ users → out u w = out v w.
Proof.
  unfold compare_generated_outputs. destruct users as [|first rest].
  - simpl. unfold M_ret. split; [|done]. intros _ u v Hu. by apply elem_of_nil in Hu.
  - rewrite compare_from_cons, compare_from_some_true, Forall_forall. split.
    + intros Hall u v Hu Hv.
      assert (∀ x, x ∈ first :: rest → out x w = out first w) as Hx.
      { intros x [->|Hx]%elem_of_cons; [done|]. by apply Hall. }
      by rewrite (Hx u Hu), (Hx v Hv).
    + intros Hall u Hu. apply Hall; set_solver.
Qed.

(** The first adjacent pair that differs ends the loop with a report
    naming both users. *)
Lemma compare_from_some_false lastName lastOutput users w w' :
  out lastName w = lastOutput →
  compare_from cfg problem (Some (lastName, lastOutput)) users w = (Ok false, w') →
  ∃ before a b after,
    lastName :: users = before ++ a :: b :: after
    ∧ Forall (λ u, out u w = lastOutput) (before ++ [a])
    ∧ out b w ≠ out a w
    ∧ w' = Fs.print (mismatch_line a problem b) w.
Proof.
  revert lastName. induction users as [|user rest IH]; intros lastName Hlast.
  - simpl. unfold M_ret. discriminate.
  - rewrite compare_from_cons. case_bool_decide as Heq.
    + rewrite Heq. intros (before & a & b & after & Hsplit & Hsame & Hne & Hw)%IH;
        [|done].
      exists (lastName :: before), a, b, after.
      split; [by rewrite Hsplit|]. split; [by constructor|]. done.
    + intros [= <-]. exists [], lastName, user, rest.
      split; [done|]. split; [by repeat constructor|]. split; [congruence|done].
Qed.

(** X19. When [compare_generated_outputs] returns false, it stopped at
    the first user whose text (as a text-mode read gives it) differs from
    the text of the user just before, all the users before that one
    having equal texts, and it printed one line naming the two; nothing
    else changed. *)
Lemma compare_generated_outputs_false users w w' :
  compare_generated_outputs cfg problem users w = (Ok false, w') →
  ∃ before a b after,
    users = before ++ a :: b :: after
    ∧ Forall (λ u, out u w = out a w) before
    ∧ out b w ≠ out a w
    ∧ w' = Fs.print (mismatch_line a problem b) w.
Proof.
  unfold compare_generated_outputs. destruct users as [|first rest].
  - simpl. unfold M_ret. discriminate.
  - rewrite compare_from_cons.
    intros (before & a & b & after & Hsplit & Hsame & Hne & Hw)%compare_from_some_false;
      [|done].
    exists before, a, b, after. split; [done|].
    apply Forall_app in Hsame as [Hbefore Ha]. inversion Ha as [|? ? Ha' _]; subst.
    rewrite Ha'. rewrite Ha' in Hne. done.
Qed.

(** The loop never raises. *)
Lemma compare_from_returns lastUser users w :
  ∃ b w', compare_from cfg problem lastUser users w = (Ok b, w').
Proof.
  revert lastUser. induction users as [|user rest IH]; intros lastUser.
  - simpl. unfold M_ret. eauto.
  - rewrite compare_from_cons. destruct lastUser as [[n o]|]; [|apply IH].
    case_bool_decide; [apply IH|eauto].
Qed.

End Consistency.

(** C2. alice and bob both pass problem 1, and the generated-case outputs
    the run stage saved for them differ (7 and 5 in their output
    directories); [compare_generated_outputs] looks directly under each
    user's directory, finds no file, compares the empty string with the
    empty string and answers true, and the loop goes on to promote
    alice's output. *)
Theorem compare_generated_outputs_misses_saved_outputs :
  let tested :=
    (for_each (λ _ person,
                 test_solution Scenario.cfg Scenario.rt 1 person false false false false)
       true ["alice"; "bob"] Scenario.alice_and_bob) in
  tested.1 = Ok true
  ∧ Fs.files tested.2 !! ["repo"; "alice"; "output"; "Problem1_generated.out"] = Some "7"
  ∧ Fs.files tested.2 !! ["repo"; "bob"; "output"; "Problem1_generated.out"] = Some "5"
  ∧ compare_generated_outputs Scenario.cfg 1 ["alice"; "bob"] tested.2
    = (Ok true, tested.2)
  ∧ let finished :=
      main Scenario.cfg Scenario.rt false false false false [1] ["alice"; "bob"]
        Scenario.alice_and_bob in
    finished.1 = Ok tt
    ∧ Fs.stdout finished.2 = []
    ∧ Fs.files finished.2 !! ["repo"; "FinalIO"; "Problem1_generated.out"] = Some "7".
Proof. vm_compute. repeat split; reflexivity. Qed.

(** ** Paths *)

Lemma str_app_nil_r (s : string) : s +:+ "" = s.
Proof. induction s as [|a s IH]; [reflexivity|]. change (String a (s +:+ "") = String a s). by rewrite IH. Qed.

Lemma str_app_assoc (s t u : string) : (s +:+ t) +:+ u = s +:+ (t +:+ u).
Proof.
  induction s as [|a s IH]; [reflexivity|].
  change (String a ((s +:+ t) +:+ u) = String a (s +:+ (t +:+ u))). by rewrite IH.
Qed.

Lemma ascii_eqb_eq (a b : ascii) : PyStr.ascii_eqb a b = true ↔ a = b.
Proof. unfold PyStr.ascii_eqb. by rewrite bool_decide_eq_true. Qed.

Lemma ascii_eqb_refl (a : ascii) : PyStr.ascii_eqb a a = true.
Proof. by apply ascii_eqb_eq. Qed.

Lemma ascii_eqb_neq (a b : ascii) : PyStr.ascii_eqb a b = false ↔ a ≠ b.
Proof. unfold PyStr.ascii_eqb. by rewrite bool_decide_eq_false. Qed.

Lemma components_nonempty p : Fs.components p ≠ [].
Proof.
  destruct p as [|a p]; simpl; [done|].
  destruct (PyStr.ascii_eqb a "/"); [done|]. by destruct (Fs.components p).
Qed.

Lemma components_app_slash a b :
  Fs.components (a +:+ String "/" b) = Fs.components a ++ Fs.components b.
Proof.
  induction a as [|c a IH].
  - reflexivity.
  - change (String c a +:+ String "/" b) with (String c (a +:+ String "/" b)).
    simpl. rewrite IH. destruct (PyStr.ascii_eqb c "/"); [reflexivity|].
    pose proof (components_nonempty a). by destruct (Fs.components a).
Qed.

Lemma components_no_slash b :
  PyStr.has_char "/" b = false → Fs.components b = [b].
Proof.
  induction b as [|c b IH]; [reflexivity|]. simpl.
  intros [Hc Hb]%orb_false_elim. rewrite Hc, (IH Hb). reflexivity.
Qed.

Lemma components_leading_slash x :
  PyStr.startswith "/" x = true → ∃ cs, Fs.components x = "" :: cs.
Proof.
  destruct x as [|c x]; [discriminate|]. simpl.
  rewrite andb_true_r. intros Hc. apply ascii_eqb_eq in Hc as <-.
  rewrite ascii_eqb_refl. eauto.
Qed.

Lemma endswith_char_split c s :
  PyStr.endswith_char c s = true → ∃ s', s = s' +:+ String c "".
Proof.
  induction s as [|a s IH]; [discriminate|]. simpl.
  destruct s as [|b s].
  - intros ->%ascii_eqb_eq. by exists "".
  - intros (s' & Hs')%IH. exists (String a s'). rewrite Hs'. reflexivity.
Qed.

Lemma descend_plain k c : plain_name c → Fs.descend k c = k ++ [c].
Proof.
  intros (H1 & H2 & H3 & _). unfold Fs.descend.
  by rewrite !bool_decide_false.
Qed.

Lemma descend_all_plain k cs :
  Forall plain_name cs → foldl Fs.descend k cs = k ++ cs.
Proof.
  revert k. induction cs as [|c cs IH]; intros k Hcs; simpl.
  - by rewrite app_nil_r.
  - apply Forall_cons in Hcs as [Hc Hcs]. rewrite (descend_plain _ _ Hc), IH by done.
    by rewrite <- app_assoc.
Qed.

Lemma resolve_app_slash a b :
  Fs.resolve (a +:+ String "/" b) = foldl Fs.descend (Fs.resolve a) (Fs.components b).
Proof. unfold Fs.resolve. by rewrite components_app_slash, foldl_app. Qed.

(** Joining a relative path resolves it from the first path. *)
Lemma resolve_join_relative a b :
  PyStr.startswith "/" b = false →
  Fs.resolve (OsPath.join a b) = foldl Fs.descend (Fs.resolve a) (Fs.components b).
Proof.
  intros Hb. unfold OsPath.join. rewrite Hb.
  destruct (bool_decide (a = "")) eqn:Hempty; simpl.
  - apply bool_decide_eq_true in Hempty as ->. reflexivity.
  - destruct (PyStr.endswith_char OsPath.sep a) eqn:Hsep.
    + apply endswith_char_split in Hsep as [a' ->].
      rewrite str_app_assoc. change (String OsPath.sep "" +:+ b) with (String "/" b).
      rewrite resolve_app_slash. f_equal.
      unfold Fs.resolve. rewrite components_app_slash, foldl_app. reflexivity.
    + change ("/" +:+ b) with (String "/" b). apply resolve_app_slash.
Qed.

Lemma plain_name_relative c : plain_name c → PyStr.startswith "/" c = false.
Proof.
  intros (_ & _ & _ & Hc). destruct c as [|a c]; [reflexivity|].
  simpl in *. apply orb_false_elim in Hc as [Ha _].
  rewrite andb_true_r. apply ascii_eqb_neq. apply ascii_eqb_neq in Ha. congruence.
Qed.

Lemma all_plain_relative p :
  Forall plain_name (Fs.components p) → PyStr.startswith "/" p = false.
Proof.
  intros Hp. destruct (PyStr.startswith "/" p) eqn:Hs; [|reflexivity].
  apply components_leading_slash in Hs as [cs Hcs]. rewrite Hcs in Hp.
  apply Forall_cons in Hp as [(Hne & _) _]. done.
Qed.

(** ** Where the consistency check reads and where the run stage writes *)

Section ReadAndSavedPaths.
Variable cfg : Config.

(** C9 (amended). When the configured output directory is a relative path
    made of ordinary names, and the generated-case output name and the
    name the run stage saves under are ordinary names, the file
    [compare_generated_outputs] reads for a user is not the file the run
    stage wrote for that user: the two paths differ, and still differ once
    resolved. *)
Theorem generated_path_not_saved_path (problem : Z) (user : string) :
  Forall plain_name (Fs.components (user_output_directory (definitions cfg))) →
  plain_name (problem_string cfg problem
              +:+ generated_case_extension (definitions cfg)
              +:+ "." +:+ output_file_ending (definitions cfg)) →
  plain_name (OsPath.basename (expected_output_path cfg (generated_input cfg problem))) →
  Fs.resolve (generated_path cfg problem user)
  ≠ Fs.resolve (saved_generated_path cfg problem user)
  ∧ generated_path cfg problem user ≠ saved_generated_path cfg problem user.
Proof.
  intros Houtdir Hread Hsaved.
  assert (Fs.resolve (generated_path cfg problem user)
          ≠ Fs.resolve (saved_generated_path cfg problem user)) as Hne.
  { unfold generated_path, case_path, saved_generated_path, save_path, user_output_path.
    rewrite resolve_join_relative by (by apply plain_name_relative).
    change ("/" +:+ ?b) with (String "/" b).
    rewrite resolve_app_slash.
    rewrite resolve_join_relative by (by apply all_plain_relative).
    destruct Hread as (? & ? & ? & Hslash). destruct Hsaved as (? & ? & ? & Hslash').
    rewrite (components_no_slash _ Hslash), (components_no_slash _ Hslash').
    rewrite (descend_all_plain _ _ Houtdir). simpl.
    rewrite !descend_plain by done.
    rewrite <- app_assoc. intros Heq%app_inv_head.
    pose proof (components_nonempty (user_output_directory (definitions cfg))) as Hnil.
    destruct (Fs.components (user_output_directory (definitions cfg))) as [|c cs];
      [done|].
    destruct cs; discriminate. }
  split; [exact Hne|]. intros Heq. apply Hne. by rewrite Heq.
Qed.

End ReadAndSavedPaths.

Lemma generated_path_not_saved_path_witness :
  Fs.resolve (generated_path Scenario.cfg 1 "alice")
  ≠ Fs.resolve (saved_generated_path Scenario.cfg 1 "alice")
  ∧ generated_path Scenario.cfg 1 "alice" ≠ saved_generated_path Scenario.cfg 1 "alice".
Proof.
  apply (generated_path_not_saved_path Scenario.cfg 1 "alice").
  - repeat constructor; discriminate.
  - repeat split; discriminate.
  - repeat split; discriminate.
Defined.

(** C9 as stated fails for an output directory that is configured, not
    empty, and resolves to the user's own directory: the path read is the
    path written, and after alice's test the consistency check takes the
    text the run stage saved as her generated-case output. *)
Lemma generated_path_is_saved_path :
  user_output_directory (definitions Scenario.cfg_absolute) ≠ ""
  ∧ generated_path Scenario.cfg_absolute 1 "alice"
    = saved_generated_path Scenario.cfg_absolute 1 "alice"
  ∧ (test_solution Scenario.cfg_absolute Scenario.rt 1 "alice" false false false false
       Scenario.alice_cat).1 = Ok true
  ∧ Fs.files Scenario.alice_cat
      !! Fs.resolve (generated_path Scenario.cfg_absolute 1 "alice") = None
  ∧ generated_output Scenario.cfg_absolute 1 "alice"
      (test_solution Scenario.cfg_absolute Scenario.rt 1 "alice" false false false false
         Scenario.alice_cat).2 = "7".
Proof. split; [discriminate|]. vm_compute. repeat split; reflexivity. Qed.

(** ** The order of the stages in the top-level loop *)

Abbreviation all_passed people := ((λ p, Tested p (Ok true)) <$> people).

Section Order.
Variable test : Z → string → M bool.
Variable compare : Z → list string → M bool.
Variable finalize : Z → string → M bool.
Variable say : string → M unit.
Variable problem : Z.

Abbreviation test_body :=
  (λ (passingPeople : nat) (person : string),
     passed <~ logged (Tested person) (test problem person);
     M_ret (if passed then Datatypes.S passingPeople else passingPeople)).

(** The loop over the people records one test per person, in order, and
    counts as many passes as there are people only if every test
    returned true. *)
Lemma test_loop_log people n0 w log r w' log' :
  for_each test_body n0 people (w, log) = (r, (w', log')) →
  ∃ evs, log' = log ++ evs ∧ Forall is_test evs
    ∧ ∀ n, r = Ok n →
        (n ≤ n0 + length people)%nat
        ∧ (n = (n0 + length people)%nat → evs = all_passed people).
Proof.
  revert n0 w log. induction people as [|p ps IH]; intros n0 w log.
  - simpl. unfold M_ret. intros [= <- <- <-]. exists [].
    rewrite app_nil_r. split; [done|]. split; [constructor|].
    intros n [= <-]. split; [lia|done].
  - simpl. unfold M_bind at 1. unfold M_bind at 1. unfold logged at 1. simpl.
    destruct (test problem p w) as [[b|e] w1].
    + unfold M_ret at 1. intros (evs & -> & Htests & Hcount)%IH.
      exists (Tested p (Ok b) :: evs). rewrite <- app_assoc.
      split; [done|]. split; [by constructor|].
      intros n Hn. destruct (Hcount n Hn) as [Hle Hall]. destruct b.
      * split; [lia|]. intros Hfull. simpl. f_equal. apply Hall. lia.
      * split; [lia|]. intros Hfull. lia.
    + intros [= <- <- <-]. exists [Tested p (Raise e)].
      split; [done|]. split; [by repeat constructor|]. discriminate.
Qed.

(** The shapes the trace of one problem can take. *)
Lemma traced_drive_shapes people w r w' log :
  drive_problem
    (λ problem person, logged (Tested person) (test problem person))
    (λ problem users, logged (Compared users) (compare problem users))
    (λ problem user, logged (Finalized user) (finalize problem user))
    (λ line, unlogged (say line))
    people problem (w, []) = (r, (w', log)) →
  Forall is_test log
  ∨ (∃ c, log = all_passed people ++ [Compared people c]
          ∧ (c = Ok true → people = []))
  ∨ (∃ u c, log = all_passed people ++ [Compared people (Ok true); Finalized u c]
            ∧ head people = Some u).
Proof.
  unfold drive_problem. unfold M_bind at 1.
  destruct (for_each _ _ _ _) as [[n|e] [w1 log1]] eqn:Hloop.
  - apply test_loop_log in Hloop as (evs & Hlog1 & Htests & Hcount).
    simpl in Hlog1. subst log1. destruct (Hcount n eq_refl) as [_ Hall].
    case_bool_decide as Hn.
    + rewrite (Hall Hn). unfold M_bind at 1. unfold logged at 1. simpl.
      destruct (compare problem people w1) as [[[|]|e] w2].
      * destruct people as [|person rest].
        -- unfold M_bind, lift. intros [= <- <- <-]. right. left. eauto.
        -- unfold M_bind at 1. unfold lift at 1. unfold M_bind at 1.
           unfold logged at 1. simpl.
           destruct (finalize problem person w2) as [[copied|e] w3].
           ++ rewrite <- app_assoc. simpl.
              destruct copied; simpl; unfold unlogged, M_ret; simpl.
              ** intros [= <- <- <-]. right. right. eauto.
              ** destruct (say _ w3) as [r3 w4]. intros [= <- <- <-].
                 right. right. eauto.
           ++ rewrite <- app_assoc. simpl. intros [= <- <- <-].
              right. right. eauto.
      * unfold M_ret. intros [= <- <- <-]. right. left.
        eexists. split; [done|]. discriminate.
      * intros [= <- <- <-]. right. left. eexists. split; [done|]. discriminate.
    + unfold M_ret. intros [= <- <- <-]. by left.
  - apply test_loop_log in Hloop as (evs & Hlog1 & Htests & _).
    simpl in Hlog1. subst log1. intros [= <- <- <-]. by left.
Qed.

(** Recording the calls does not change what the loop does. *)
Lemma erases_ret {A} (a : A) : erases (M_ret a) (M_ret a).
Proof. by intros w log. Qed.

Lemma erases_lift {A} (r : res A) : erases (lift r) (lift r).
Proof. by intros w log. Qed.

Lemma erases_bind {A B} (m' : traced A) (m : M A) (f' : A → traced B) (f : A → M B) :
  erases m' m → (∀ a, erases (f' a) (f a)) → erases (M_bind m' f') (M_bind m f).
Proof.
  intros Hm Hf w log. unfold M_bind. destruct (Hm w log) as [H1 H2].
  destruct (m' (w, log)) as [r' [w1' log1]], (m w) as [r w1].
  simpl in *. subst. destruct r; [apply Hf|done].
Qed.

Lemma erases_logged {A} (record : res A → event) (m : M A) : erases (logged record m) m.
Proof. intros w log. unfold logged. simpl. by destruct (m w). Qed.

Lemma erases_unlogged {A} (m : M A) : erases (unlogged m) m.
Proof. intros w log. unfold unlogged. simpl. by destruct (m w). Qed.

Lemma erases_for_each {A L} (body' : L → A → traced L) (body : L → A → M L) l :
  (∀ s x, erases (body' s x) (body s x)) →
  ∀ s, erases (for_each body' s l) (for_each body s l).
Proof.
  intros Hbody. induction l as [|x l IH]; intros s; simpl.
  - apply erases_ret.
  - apply erases_bind; [apply Hbody|apply IH].
Qed.

Lemma traced_drive_erase people :
  erases
    (drive_problem
       (λ problem person, logged (Tested person) (test problem person))
       (λ problem users, logged (Compared users) (compare problem users))
       (λ problem user, logged (Finalized user) (finalize problem user))
       (λ line, unlogged (say line))
       people problem)
    (drive_problem test compare finalize say people problem).
Proof.
  unfold drive_problem. apply erases_bind.
  - apply erases_for_each. intros s x.
    apply erases_bind; [apply erases_logged|]. intros a. apply erases_ret.
  - intros n. case_bool_decide; [|apply erases_ret].
    apply erases_bind; [apply erases_logged|]. intros [|]; [|apply erases_ret].
    apply erases_bind; [apply erases_lift|]. intros u.
    apply erases_bind; [apply erases_logged|].
    intros [|]; simpl; [apply erases_ret|apply erases_unlogged].
Qed.

End Order.

(** C8. In the loop of one problem, the consistency check is called only
    after every tested person passed [test_solution], on the list of the
    tested people; the promotion is called only after the consistency
    check returned true, for the first tested person; and once a person
    fails (or the test raises) neither of the two is called. The trace
    records the calls of the loop [main] runs, which it leaves as it is. *)
Theorem stages_in_order (cfg : Config) (rt : Runtime)
    (skipsample skipcorner htmldiffs openhtml : bool)
    (peopleToTest : list string) (problem : Z) (w : Fs.world) :
  let traced_run :=
    traced_problem cfg rt skipsample skipcorner htmldiffs openhtml
      peopleToTest problem (w, []) in
  let log := traced_run.2.2 in
  (traced_run.1, traced_run.2.1)
  = main_problem cfg rt skipsample skipcorner htmldiffs openhtml peopleToTest problem w
  ∧ (∀ users c, Compared users c ∈ log →
       users = peopleToTest
       ∧ (∀ p, p ∈ peopleToTest → Tested p (Ok true) ∈ log)
       ∧ (∀ p o, Tested p o ∈ log → o = Ok true))
  ∧ (∀ u c, Finalized u c ∈ log →
       Compared peopleToTest (Ok true) ∈ log ∧ head peopleToTest = Some u)
  ∧ (∀ p o, Tested p o ∈ log → o ≠ Ok true → Forall is_test log).
Proof.
  intros traced_run log. split.
  - pose proof (traced_drive_erase
      (λ problem person,
         test_solution cfg rt problem person skipsample skipcorner htmldiffs openhtml)
      (compare_generated_outputs cfg) (copy_to_final_io cfg)
      (λ line, tell (Fs.print line)) problem peopleToTest w []) as [H1 H2].
    unfold traced_run, traced_problem, main_problem.
    rewrite H1, H2. by destruct (drive_problem _ _ _ _ _ _ w).
  - assert (∀ ev, ev ∈ all_passed peopleToTest →
              ∃ p, ev = Tested p (Ok true) ∧ p ∈ peopleToTest) as Hpassed.
    { intros ev (p & -> & Hp)%list_elem_of_fmap. eauto. }
    destruct traced_run as [r [w' log']] eqn:Hrun. subst log. simpl.
    apply traced_drive_shapes in Hrun
      as [Htests|[(c & -> & Hc)|(u & c & -> & Hu)]].
    + split; [|split].
      * intros users c Hin. rewrite Forall_forall in Htests.
        by destruct (Htests _ Hin).
      * intros u c Hin. rewrite Forall_forall in Htests.
        by destruct (Htests _ Hin).
      * done.
    + split; [|split].
      * intros users c' [Hin|Hin]%elem_of_app.
        { apply Hpassed in Hin as (p & [=] & _). }
        apply list_elem_of_singleton in Hin as [= -> ->].
        split; [done|]. split.
        -- intros p Hp. apply elem_of_app. left.
           apply list_elem_of_fmap. eauto.
        -- intros p o [Hin|Hin]%elem_of_app.
           ++ by apply Hpassed in Hin as (p' & [= -> ->] & _).
           ++ by apply list_elem_of_singleton in Hin.
      * intros u c' [Hin|Hin]%elem_of_app.
        { apply Hpassed in Hin as (p & [=] & _). }
        by apply list_elem_of_singleton in Hin.
      * intros p o [Hin|Hin]%elem_of_app Ho.
        -- by apply Hpassed in Hin as (p' & [= -> ->] & _).
        -- by apply list_elem_of_singleton in Hin.
    + split; [|split].
      * intros users c' [Hin|Hin]%elem_of_app.
        { apply Hpassed in Hin as (p & [=] & _). }
        apply elem_of_cons in Hin as [[= -> ->]|Hin];
          [|by apply list_elem_of_singleton in Hin].
        split; [done|]. split.
        -- intros p Hp. apply elem_of_app. left.
           apply list_elem_of_fmap. eauto.
        -- intros p o [Hin|Hin]%elem_of_app.
           ++ by apply Hpassed in Hin as (p' & [= -> ->] & _).
           ++ apply elem_of_cons in Hin as [[=]|Hin].
              by apply list_elem_of_singleton in Hin.
      * intros u' c' [Hin|Hin]%elem_of_app.
        { apply Hpassed in Hin as (p & [=] & _). }
        apply elem_of_cons in Hin as [[=]|Hin].
        apply list_elem_of_singleton in Hin as [= -> ->].
        split; [|done]. apply elem_of_app. right. apply elem_of_cons. by left.
      * intros p o [Hin|Hin]%elem_of_app Ho.
        -- by apply Hpassed in Hin as (p' & [= -> ->] & _).
        -- apply elem_of_cons in Hin as [[=]|Hin].
           by apply list_elem_of_singleton in Hin.
Qed.

(** ** The promotion of the final artifacts *)

Lemma forallb_true_Forall {A} (f : A → bool) (l : list A) :
  forallb f l = true ↔ Forall (λ x, f x = true) l.
Proof.
  induction l as [|x l IH]; simpl.
  - split; [constructor|done].
  - rewrite andb_true_iff, Forall_cons, IH. done.
Qed.





Section Promotion.
Variable cfg : Config.



End Promotion.



(** ** Substitution in a language block *)

Section Substitution.
Variable cfg : Config.
Variable problemFile directory : string.

Lemma replace_entries items :
  res_map (λ listEntry,
      replace_language_vars_individual cfg listEntry problemFile directory) items
  = if forallb is_str items
    then Ok (substituted_entry cfg problemFile directory <$> items)
    else Raise AttributeError.
Proof.
  induction items as [|v items IH]; [reflexivity|]. simpl. rewrite IH.
  destruct v; simpl; try reflexivity. by destruct (forallb is_str items).
Qed.

Lemma replace_language_item_cases v :
  replace_language_item cfg v problemFile directory
  = if strings_only v then Ok (substituted cfg problemFile directory v)
    else Raise AttributeError.
Proof.
  destruct v; simpl; try reflexivity. rewrite replace_entries.
  by destruct (forallb is_str items).
Qed.

(** X2. On a language block whose fields are all strings or
    lists of strings, [replace_language_vars] returns the block with the
    placeholders replaced in every string field and in every element of
    every list field, under the same keys; the result is a function of the
    block, the file name, the directory and the loaded variables alone.
    A field of any other type is not passed through: it makes the call
    raise [AttributeError]. *)
Theorem replace_language_vars_strings_only (languageBlock : LanguageBlock) :
  replace_language_vars cfg languageBlock problemFile directory
  = if bool_decide (map_Forall (λ _ v, strings_only v = true) languageBlock)
    then Ok (substituted cfg problemFile directory <$> languageBlock)
    else Raise AttributeError.
Proof.
  unfold replace_language_vars.
  pose (P := λ (r : res LanguageBlock) (m : LanguageBlock),
    r = if bool_decide (map_Forall (λ _ v, strings_only v = true) m)
        then Ok (substituted cfg problemFile directory <$> m)
        else Raise AttributeError).
  apply (map_fold_weak_ind P); unfold P; clear P.
  - rewrite bool_decide_true by apply map_Forall_empty. by rewrite fmap_empty.
  - intros key item m r Hfresh ->.
    rewrite replace_language_item_cases.
    destruct (strings_only item) eqn:Hitem.
    + case_bool_decide as Hm.
      * rewrite bool_decide_true by (by apply map_Forall_insert).
        simpl. by rewrite fmap_insert.
      * rewrite bool_decide_false; [reflexivity|].
        intros [_ ?]%map_Forall_insert; done.
    + rewrite (bool_decide_false (map_Forall _ (<[key:=item]> m))).
      * by case_bool_decide.
      * intros [? _]%map_Forall_insert; [congruence|done].
Qed.

End Substitution.

(** On a block with a numeric field the call raises instead of returning
    the block with that field unchanged. *)
Lemma replace_language_vars_number_raises :
  replace_language_vars Scenario.cfg Scenario.python_with_timeout
    "Problem1.py" "/repo/alice" = Raise AttributeError
  ∧ replace_language_vars Scenario.cfg Scenario.python_with_timeout
      "Problem1.py" "/repo/alice"
    ≠ Ok (substituted Scenario.cfg "Problem1.py" "/repo/alice"
            <$> Scenario.python_with_timeout)
  ∧ substituted Scenario.cfg "Problem1.py" "/repo/alice"
      <$> Scenario.python_with_timeout
    = <["timeout" := VInt 5]> Scenario.alice_python.
Proof.
  assert (replace_language_vars Scenario.cfg Scenario.python_with_timeout
            "Problem1.py" "/repo/alice" = Raise AttributeError) as H
    by (vm_compute; reflexivity).
  split; [exact H|]. split; [by rewrite H|]. vm_compute. reflexivity.
Qed.

(** ** Replacement of delimited placeholders *)

Lemma startswith_app p t : PyStr.startswith p (p +:+ t) = true.
Proof.
  induction p as [|a p IH]; [reflexivity|].
  change (String a p +:+ t) with (String a (p +:+ t)). simpl.
  by rewrite ascii_eqb_refl, IH.
Qed.

Lemma startswith_split p s :
  PyStr.startswith p s = true → ∃ t, s = p +:+ t.
Proof.
  revert s. induction p as [|a p IH]; intros s.
  - by exists s.
  - destruct s as [|b s]; [discriminate|]. simpl.
    intros [->%ascii_eqb_eq [t ->]%IH]%andb_true_iff. by exists t.
Qed.

(** A string that begins a concatenation begins its first part, or the
    first part begins the string. *)
Lemma startswith_app_cases x y t :
  PyStr.startswith x (y +:+ t) = true →
  PyStr.startswith x y = true ∨ PyStr.startswith y x = true.
Proof.
  revert y. induction x as [|a x IH]; intros y; [by left|].
  destruct y as [|b y]; [by right|].
  change (String b y +:+ t) with (String b (y +:+ t)). simpl.
  intros [Hab Hrest]%andb_true_iff. apply ascii_eqb_eq in Hab as ->.
  rewrite !ascii_eqb_refl. simpl. by apply IH.
Qed.

Lemma has_char_app c s t :
  PyStr.has_char c (s +:+ t) = PyStr.has_char c s || PyStr.has_char c t.
Proof.
  induction s as [|a s IH]; [reflexivity|].
  change (String a s +:+ t) with (String a (s +:+ t)). simpl.
  by rewrite IH, orb_assoc.
Qed.

Lemma has_char_take c n s :
  PyStr.has_char c s = false → PyStr.has_char c (PyStr.take n s) = false.
Proof.
  revert s. induction n as [|n IH]; intros [|a s]; simpl; try done.
  intros [Ha Hs]%orb_false_elim. by rewrite Ha, IH.
Qed.

Section Scan.
Variable c : ascii.
Variable b v : string.

Abbreviation p := (String c b).
Abbreviation R := (PyStr.replace_scan p v 0).

Lemma scan_skip u t :
  PyStr.replace_scan p v (String.length u) (u +:+ t) = R t.
Proof.
  induction u as [|a u IH]; [reflexivity|].
  change (String a u +:+ t) with (String a (u +:+ t)). simpl. exact IH.
Qed.

Lemma scan_match t : R (p +:+ t) = v +:+ R t.
Proof.
  change (p +:+ t) with (String c (b +:+ t)).
  unfold PyStr.replace_scan at 1.
  change (String c (b +:+ t)) with (p +:+ t) at 1.
  rewrite startswith_app. fold PyStr.replace_scan.
  unfold PyStr.len. simpl. by rewrite scan_skip.
Qed.

Lemma scan_other a t :
  PyStr.startswith p (String a t) = false → R (String a t) = String a (R t).
Proof.
  intros H. unfold PyStr.replace_scan at 1. rewrite H. reflexivity.
Qed.

(** Text without the marker is left as it is. *)
Lemma scan_plain u t :
  PyStr.has_char c u = false → R (u +:+ t) = u +:+ R t.
Proof.
  induction u as [|a u IH]; [reflexivity|].
  intros Hc. simpl in Hc. apply orb_false_elim in Hc as [Ha Hu].
  change (String a u +:+ t) with (String a (u +:+ t)).
  rewrite scan_other.
  - rewrite IH by done. reflexivity.
  - simpl. apply ascii_eqb_neq in Ha.
    rewrite (proj2 (ascii_eqb_neq c a)) by congruence. reflexivity.
Qed.

(** Replacing does not make, or unmake, an occurrence of another body
    right at the start. *)
Lemma scan_startswith body h rest t :
  v = String h rest →
  PyStr.has_char c body = false →
  PyStr.has_char h body = false →
  PyStr.startswith body (R t) = PyStr.startswith body t.
Proof.
  intros Hv. revert body. induction t as [|a t IH]; intros body Hc Hh.
  - reflexivity.
  - destruct body as [|x body]; [reflexivity|].
    simpl in Hc, Hh. apply orb_false_elim in Hc as [Hxc Hc].
    apply orb_false_elim in Hh as [Hxh Hh].
    destruct (PyStr.startswith p (String a t)) eqn:Hmatch.
    + apply startswith_split in Hmatch as [t2 Ht2]. rewrite Ht2, scan_match.
      rewrite Hv. change (String c b +:+ t2) with (String c (b +:+ t2)).
      change (String h rest +:+ R t2) with (String h (rest +:+ R t2)).
      simpl. rewrite Hxc, Hxh. reflexivity.
    + rewrite scan_other by done. simpl. by rewrite IH.
Qed.

End Scan.

Lemma str_length_app (s t : string) :
  String.length (s +:+ t) = (String.length s + String.length t)%nat.
Proof.
  induction s as [|a s IH]; [reflexivity|].
  change (String a s +:+ t) with (String a (s +:+ t)). simpl. by rewrite IH.
Qed.

Section Commute.
Variable c : ascii.
Variables b1 v1 b2 v2 : string.
Variables h1 h2 : ascii.
Variables r1 r2 : string.
Hypothesis marker_b1 : PyStr.has_char c b1 = false.
Hypothesis marker_b2 : PyStr.has_char c b2 = false.
Hypothesis marker_v1 : PyStr.has_char c v1 = false.
Hypothesis marker_v2 : PyStr.has_char c v2 = false.
Hypothesis bodies : unrelated b1 b2.
Hypothesis head_v1 : v1 = String h1 r1.
Hypothesis head_v2 : v2 = String h2 r2.
Hypothesis head_b2 : PyStr.has_char h1 b2 = false.
Hypothesis head_b1 : PyStr.has_char h2 b1 = false.

Abbreviation R1 := (PyStr.replace_scan (String c b1) v1 0).
Abbreviation R2 := (PyStr.replace_scan (String c b2) v2 0).

Lemma no_double_match t :
  PyStr.startswith (String c b2) (String c b1 +:+ t) = false.
Proof.
  change (String c b1 +:+ t) with (String c (b1 +:+ t)). simpl.
  rewrite ascii_eqb_refl. simpl.
  destruct (PyStr.startswith b2 (b1 +:+ t)) eqn:H; [|reflexivity].
  destruct bodies as [H12 H21].
  apply startswith_app_cases in H as [H|H]; congruence.
Qed.

End Commute.

(** Two replacements of delimited placeholders can be done in either
    order. *)
Lemma scan_commute c b1 v1 b2 v2 h1 h2 r1 r2 :
  PyStr.has_char c b1 = false → PyStr.has_char c b2 = false →
  PyStr.has_char c v1 = false → PyStr.has_char c v2 = false →
  unrelated b1 b2 →
  v1 = String h1 r1 → v2 = String h2 r2 →
  PyStr.has_char h1 b2 = false → PyStr.has_char h2 b1 = false →
  ∀ s,
    PyStr.replace_scan (String c b1) v1 0 (PyStr.replace_scan (String c b2) v2 0 s)
    = PyStr.replace_scan (String c b2) v2 0 (PyStr.replace_scan (String c b1) v1 0 s).
Proof.
  intros Hb1 Hb2 Hv1 Hv2 Hun Hh1 Hh2 Hhb2 Hhb1 s.
  assert (unrelated b2 b1) as Hun' by (destruct Hun; by split).
  remember (String.length s) as n eqn:Hn.
  assert (String.length s ≤ n)%nat as Hle by lia. clear Hn.
  revert s Hle. induction n as [|n IH]; intros s Hle.
  { destruct s; [reflexivity|]. simpl in Hle. lia. }
  destruct s as [|a t]; [reflexivity|].
  destruct (PyStr.startswith (String c b1) (String a t)) eqn:H1.
  - apply startswith_split in H1 as [t2 Ht2]. rewrite Ht2.
    assert (String.length t2 ≤ n)%nat as Hshort.
    { apply (f_equal String.length) in Ht2. rewrite str_length_app in Ht2.
      simpl in Ht2, Hle. lia. }
    rewrite (scan_match c b1 v1).
    rewrite (scan_plain c b2 v2 v1) by done.
    change (String c b1 +:+ t2) with (String c (b1 +:+ t2)).
    rewrite (scan_other c b2 v2)
      by (apply (no_double_match c b1 b2 Hun)).
    rewrite (scan_plain c b2 v2 b1) by done.
    change (String c (b1 +:+ ?x)) with (String c b1 +:+ x).
    rewrite (scan_match c b1 v1). by rewrite IH.
  - destruct (PyStr.startswith (String c b2) (String a t)) eqn:H2.
    + apply startswith_split in H2 as [t2 Ht2]. rewrite Ht2.
      assert (String.length t2 ≤ n)%nat as Hshort.
      { apply (f_equal String.length) in Ht2. rewrite str_length_app in Ht2.
        simpl in Ht2, Hle. lia. }
      rewrite (scan_match c b2 v2).
      rewrite (scan_plain c b1 v1 v2) by done.
      change (String c b2 +:+ t2) with (String c (b2 +:+ t2)).
      rewrite (scan_other c b1 v1)
        by (apply (no_double_match c b2 b1 Hun')).
      rewrite (scan_plain c b1 v1 b2) by done.
      change (String c (b2 +:+ ?x)) with (String c b2 +:+ x).
      rewrite (scan_match c b2 v2). by rewrite IH.
    + rewrite (scan_other c b1 v1 a t H1), (scan_other c b2 v2 a t H2).
      rewrite (scan_other c b1 v1).
      2:{ simpl. rewrite (scan_startswith c b2 v2 b1 h2 r2) by done. exact H1. }
      rewrite (scan_other c b2 v2).
      2:{ simpl. rewrite (scan_startswith c b1 v1 b2 h1 r1) by done. exact H2. }
      f_equal. apply IH. simpl in Hle. lia.
Qed.

(** ** The root of a file name *)

Lemma rfind_from_lower c i found s :
  -1 ≤ found → 0 ≤ i → -1 ≤ PyStr.rfind_from c i found s.
Proof.
  revert i found. induction s as [|a s IH]; intros i found Hf Hi; simpl; [done|].
  apply IH; [|lia]. destruct (PyStr.ascii_eqb a c); lia.
Qed.

Lemma has_non_dot_positive p n : OsPath.has_non_dot p n = true → (1 ≤ n)%nat.
Proof. destruct n; [by destruct p|lia]. Qed.

(** The root [os.path.splitext] returns is the path itself or a
    non-empty beginning of it. *)
Lemma splitext_root p :
  (OsPath.splitext p).1 = p
  ∨ ∃ n, (OsPath.splitext p).1 = PyStr.take (S n) p.
Proof.
  unfold OsPath.splitext.
  destruct (_ && _) eqn:H; [|by left]. right.
  apply andb_true_iff in H as [Hlt Hdots]. apply Z.ltb_lt in Hlt.
  apply has_non_dot_positive in Hdots.
  assert (-1 ≤ PyStr.rfind OsPath.sep p) as Hsep
    by (apply rfind_from_lower; lia).
  exists (Nat.pred (Z.to_nat (PyStr.rfind OsPath.extsep p))).
  cbv beta iota zeta. unfold fst.
  replace (S (Nat.pred (Z.to_nat (PyStr.rfind OsPath.extsep p))))
    with (Z.to_nat (PyStr.rfind OsPath.extsep p)) by lia.
  reflexivity.
Qed.

Lemma splitext_root_marker c p :
  PyStr.has_char c p = false → PyStr.has_char c (OsPath.splitext p).1 = false.
Proof.
  intros Hp. destruct (splitext_root p) as [->|[n ->]]; [done|].
  by apply has_char_take.
Qed.

Lemma splitext_root_head h rest :
  ∃ rest', (OsPath.splitext (String h rest)).1 = String h rest'.
Proof.
  destruct (splitext_root (String h rest)) as [->|[n ->]]; simpl; eauto.
Qed.

Lemma foldl_permutation {A B} (f : A → B → A) :
  (∀ a x y, f (f a x) y = f (f a y) x) →
  ∀ l1 l2, l1 ≡ₚ l2 → ∀ a, foldl f a l1 = foldl f a l2.
Proof.
  intros Hcomm l1 l2 Hperm.
  induction Hperm as [|x l1 l2 _ IH|x y l|l1 l2 l3 _ IH1 _ IH2]; intros a; simpl.
  - reflexivity.
  - apply IH.
  - by rewrite Hcomm.
  - by rewrite IH1, IH2.
Qed.

Section Orders.
Variable cfg : Config.
Variables problemFile directory : string.
Variable c : ascii.
Variables bodyF bodyL bodyD : string.
Variables headF headD : ascii.
Variables restF restD : string.

(** X1. When the three placeholders start with one marker character that
    occurs nowhere else in them nor in the file name and the directory,
    no placeholder is the beginning of another, and the file name and the
    directory are non-empty and start with a character that occurs in no
    other placeholder, the chain of [str.replace] calls of
    [replace_language_vars_individual] gives the same string whatever the
    order in which the three placeholders are replaced. *)
Theorem replace_vars_any_order (order : list placeholder) (s : string) :
  var_filename (variables cfg) = String c bodyF →
  var_filename_less_extension (variables cfg) = String c bodyL →
  var_directory (variables cfg) = String c bodyD →
  Forall (λ x, PyStr.has_char c x = false)
    [bodyF; bodyL; bodyD; problemFile; directory] →
  unrelated bodyF bodyL → unrelated bodyF bodyD → unrelated bodyL bodyD →
  problemFile = String headF restF →
  directory = String headD restD →
  Forall (λ x, PyStr.has_char headF x = false) [bodyF; bodyL; bodyD] →
  Forall (λ x, PyStr.has_char headD x = false) [bodyF; bodyL] →
  order ≡ₚ [Filename; FilenameLessExtension; Directory] →
  substitute_in_order cfg problemFile directory order s
  = replace_vars_in cfg s problemFile directory.
Proof.
  intros HF HL HD Hmarker HFL HFD HLD Hfile Hdir HheadF HheadD Hperm.
  apply Forall_cons in Hmarker as [HcF Hmarker].
  apply Forall_cons in Hmarker as [HcL Hmarker].
  apply Forall_cons in Hmarker as [HcD Hmarker].
  apply Forall_cons in Hmarker as [Hcfile Hmarker].
  apply Forall_cons in Hmarker as [Hcdir _].
  apply Forall_cons in HheadF as [HfF HheadF].
  apply Forall_cons in HheadF as [HfL HheadF].
  apply Forall_cons in HheadF as [HfD _].
  apply Forall_cons in HheadD as [HdF HheadD].
  apply Forall_cons in HheadD as [HdL _].
  destruct (splitext_root_head headF restF) as [restL Hroot].
  rewrite <- Hfile in Hroot.
  pose proof (splitext_root_marker c problemFile Hcfile) as Hcroot.
  assert (unrelated bodyL bodyF) as HLF by (destruct HFL; by split).
  assert (unrelated bodyD bodyF) as HDF by (destruct HFD; by split).
  assert (unrelated bodyD bodyL) as HDL by (destruct HLD; by split).
  transitivity (substitute_in_order cfg problemFile directory
                  [Filename; FilenameLessExtension; Directory] s);
    [|reflexivity].
  unfold substitute_in_order. apply foldl_permutation; [|exact Hperm].
  intros a x y. unfold substitute_one, PyStr.replace. rewrite HF, HL, HD.
  destruct x, y; try reflexivity.
  - eapply (scan_commute c bodyL _ bodyF _ headF headF); eauto.
  - eapply (scan_commute c bodyD _ bodyF _ headD headF); eauto.
  - eapply (scan_commute c bodyF _ bodyL _ headF headF); eauto.
  - eapply (scan_commute c bodyD _ bodyL _ headD headF); eauto.
  - eapply (scan_commute c bodyF _ bodyD _ headF headD); eauto.
  - eapply (scan_commute c bodyL _ bodyD _ headF headD); eauto.
Qed.

End Orders.

Lemma replace_vars_any_order_witness :
  substitute_in_order Scenario.cfg "Problem1.py" "/repo/alice"
    [Directory; FilenameLessExtension; Filename]
    "{directory}/{filename_less_extension} < {filename}"
  = replace_vars_in Scenario.cfg
      "{directory}/{filename_less_extension} < {filename}"
      "Problem1.py" "/repo/alice".
Proof.
  apply (replace_vars_any_order Scenario.cfg "Problem1.py" "/repo/alice" "{"
           "filename}" "filename_less_extension}" "directory}" "P" "/"
           "roblem1.py" "repo/alice").
  - reflexivity.
  - reflexivity.
  - reflexivity.
  - repeat constructor.
  - by split.
  - by split.
  - by split.
  - reflexivity.
  - reflexivity.
  - repeat constructor.
  - repeat constructor.
  - etrans; [apply perm_swap|]. etrans; [apply perm_skip, perm_swap|].
    apply perm_swap.
Defined.

(** With placeholders that are not delimited the order matters: replacing
    the file name first, as the script does, spoils the longer
    placeholder that begins with it. *)
Lemma replace_vars_order_matters :
  replace_vars_in Scenario.cfg_bare "run filename_less_extension" "p1.py" "/d"
  = "run p1.py_less_extension"
  ∧ substitute_in_order Scenario.cfg_bare "p1.py" "/d"
      [FilenameLessExtension; Filename; Directory] "run filename_less_extension"
    = "run p1"
  ∧ [FilenameLessExtension; Filename; Directory]
    ≡ₚ [Filename; FilenameLessExtension; Directory].
Proof. split; [reflexivity|]. split; [reflexivity|]. apply Permutation_swap. Qed.

(** ** Templates without placeholders *)

Lemma replace_absent old new s :
  occurs old s = false → PyStr.replace old new s = s.
Proof.
  destruct old as [|a b].
  { destruct s; discriminate. }
  unfold PyStr.replace. induction s as [|x s IH]; [reflexivity|].
  intros [Hstart Hrest]%orb_false_elim.
  rewrite scan_other by exact Hstart. by rewrite IH.
Qed.

(** X3. A string in which none of the three placeholders occurs comes out
    of [replace_language_vars_individual]'s chain of replacements as it
    went in, whatever the file name and the directory. *)
Theorem replace_vars_in_no_placeholder (cfg : Config) (s problemFile directory : string) :
  occurs (var_filename (variables cfg)) s = false →
  occurs (var_filename_less_extension (variables cfg)) s = false →
  occurs (var_directory (variables cfg)) s = false →
  replace_vars_in cfg s problemFile directory = s.
Proof.
  intros HF HL HD. unfold replace_vars_in. cbv zeta.
  rewrite (replace_absent _ _ _ HF), (replace_absent _ _ _ HL).
  by apply replace_absent.
Qed.

Lemma replace_vars_in_no_placeholder_witness :
  replace_vars_in Scenario.cfg "python3 -u" "Problem1.py" "/repo/alice" = "python3 -u".
Proof.
  apply (replace_vars_in_no_placeholder Scenario.cfg "python3 -u"
           "Problem1.py" "/repo/alice"); reflexivity.
Defined.

(** ** The compile stage *)

Section CompileStage.
Variable rt : Runtime.

(** X4. For a language block without [compileExtension],
    [compile_solution] returns true without starting a process: the store
    is left as it is, whatever else the block holds. *)
Theorem compile_solution_without_step (convertedLanguageBlock : LanguageBlock)
    (w : Fs.world) :
  convertedLanguageBlock !! "compileExtension" = None →
  compile_solution rt convertedLanguageBlock w = (Ok true, w).
Proof.
  intros H. unfold compile_solution, contains. rewrite H.
  rewrite bool_decide_false by (intros [? ?]; discriminate). reflexivity.
Qed.

(** X5. For a block with a compile step whose command is a string and
    whose arguments are a list of strings, [compile_solution] runs the
    command followed by the arguments, without an input file, and
    returns whether the exit status is zero; a nonzero status is a plain
    false, not an exception. *)
Theorem compile_solution_status (convertedLanguageBlock : LanguageBlock)
    (extension : pyval) (command : string) (arguments : list pyval)
    (args : list string) (status : Z) (out : string) (w w' : Fs.world) :
  convertedLanguageBlock !! "compileExtension" = Some extension →
  convertedLanguageBlock !! "compileCommand" = Some (VStr command) →
  convertedLanguageBlock !! "compileArguments" = Some (VList arguments) →
  res_map as_str arguments = Ok args →
  spawn rt (command :: args) None w = (Exited status out, w') →
  compile_solution rt convertedLanguageBlock w = (Ok (bool_decide (status = 0)), w').
Proof.
  intros Hext Hcmd Hargs Hstr Hspawn. unfold compile_solution, contains.
  rewrite Hext, bool_decide_true by eauto.
  unfold command_line, getitem. rewrite Hcmd, Hargs. simpl.
  unfold M_bind, lift, call, run_process, M_bind, lift. simpl.
  rewrite Hstr. simpl. rewrite Hspawn. reflexivity.
Qed.

End CompileStage.

Lemma compile_solution_without_step_witness :
  compile_solution Scenario.rt Scenario.alice_python Scenario.alice_cat
  = (Ok true, Scenario.alice_cat).
Proof.
  apply (compile_solution_without_step Scenario.rt Scenario.alice_python
           Scenario.alice_cat).
  reflexivity.
Defined.

Lemma compile_solution_status_witness :
  compile_solution Scenario.rt Cases.carol_c Cases.carol_broken
  = (Ok (bool_decide (1 = 0)), Cases.carol_broken).
Proof.
  apply (compile_solution_status Scenario.rt Cases.carol_c (VStr "c") "gcc"
           [VStr "/repo/carol/Problem1.c"] ["/repo/carol/Problem1.c"] 1 ""
           Cases.carol_broken Cases.carol_broken); reflexivity.
Defined.

(** ** The batch of the run stage *)

Section Batch.
Variable cfg : Config.
Variable rt : Runtime.

Lemma run_input_adds_one runCommand outputDirectory st file w st' w' :
  run_input cfg rt runCommand outputDirectory st file w = (Ok st', w') →
  ∃ run, results st' = results st ++ [run] ∧ inputFile run = file.
Proof.
  unfold run_input, M_bind, M_ret, lift. intros H.
  repeat case_match; simplify_eq; simpl; eauto.
Qed.

Lemma run_loop_adds_inputs runCommand outputDirectory files st w st' w' :
  for_each (run_input cfg rt runCommand outputDirectory) st files w = (Ok st', w') →
  ∃ new, results st' = results st ++ new ∧ inputFile <$> new = files.
Proof.
  revert st w. induction files as [|file files IH]; intros st w; simpl.
  - unfold M_ret. intros [= <- <-]. exists []. by rewrite app_nil_r.
  - unfold M_bind.
    destruct (run_input _ _ _ _ _ _ _) as [[st1|e] w1] eqn:Hone; [|discriminate].
    apply run_input_adds_one in Hone as (run & Hrun & Hfile).
    intros (new & Hnew & Hfiles)%IH. exists (run :: new). split.
    + by rewrite Hnew, Hrun, <- app_assoc.
    + rewrite fmap_cons. by rewrite Hfile, Hfiles.
Qed.

(** X6. When [run_solution] returns, its batch holds exactly one [Run]
    per input file, in the order of the input files, crashed runs
    included. *)
Theorem run_solution_one_run_per_input convertedLanguageBlock outputDirectory
    files w runs w' :
  run_solution cfg rt convertedLanguageBlock outputDirectory files w = (Ok runs, w') →
  inputFile <$> runs = files.
Proof.
  unfold run_solution, M_bind, lift, M_ret. intros H.
  destruct (command_line _ _ _) as [runCommand|e]; [|discriminate].
  destruct (for_each _ _ _ _) as [[st|e] w1] eqn:Hloop; [|discriminate].
  injection H as <- <-.
  by apply run_loop_adds_inputs in Hloop as (new & -> & Hfiles).
Qed.

(** X7. A run that exits with a nonzero status after an earlier run of
    the batch was captured is recorded with the actual and expected
    output of that earlier run: it is judged as that run was, whatever
    its own input and expected output are. *)
Theorem crashed_run_repeats_last runCommand outputDirectory st file
    args status out text o e w w1 :
  Fs.read file w = Ok text →
  res_map as_str runCommand = Ok args →
  spawn rt args (Some file) w = (Exited status out, w1) →
  status ≠ 0 →
  output st = Some o →
  outputFileContents st = Some e →
  ∃ st',
    run_input cfg rt runCommand outputDirectory st file w = (Ok st', w1)
    ∧ results st' = results st ++ [mkRun o e file]
    ∧ run_matches (mkRun o e file) = bool_decide (o = e)
    ∧ output st' = Some o ∧ outputFileContents st' = Some e.
Proof.
  intros Hread Hargs Hspawn Hstatus Hout Hexp. eexists. split.
  - eapply run_input_crash_stale; eauto.
  - done.
Qed.

End Batch.

Lemma run_solution_one_run_per_input_witness :
  inputFile <$> (mkRun "5" "5" Scenario.sample_in
                 :: [mkRun "7" "7" Scenario.generated_in])
  = [Scenario.sample_in; Scenario.generated_in].
Proof.
  apply (run_solution_one_run_per_input Scenario.cfg Scenario.rt Scenario.alice_python
           "/repo/alice/output" [Scenario.sample_in; Scenario.generated_in]
           Scenario.alice_cat _
           (run_solution Scenario.cfg Scenario.rt Scenario.alice_python
              "/repo/alice/output" [Scenario.sample_in; Scenario.generated_in]
              Scenario.alice_cat).2).
  vm_compute. reflexivity.
Defined.

Lemma crashed_run_repeats_last_witness :
  ∃ st',
    run_input Scenario.cfg Scenario.rt Scenario.alice_command "/repo/alice/output"
      (mkLocals (Some "5") (Some "6") [mkRun "5" "6" Scenario.sample_in])
      Scenario.generated_in Scenario.alice_fails
    = (Ok st', Scenario.alice_fails)
    ∧ results st'
      = [mkRun "5" "6" Scenario.sample_in] ++ [mkRun "5" "6" Scenario.generated_in]
    ∧ run_matches (mkRun "5" "6" Scenario.generated_in) = bool_decide ("5" = "6")
    ∧ output st' = Some "5" ∧ outputFileContents st' = Some "6".
Proof.
  apply (crashed_run_repeats_last Scenario.cfg Scenario.rt Scenario.alice_command
           "/repo/alice/output"
           (mkLocals (Some "5") (Some "6") [mkRun "5" "6" Scenario.sample_in])
           Scenario.generated_in ["python3"; "/repo/alice/Problem1.py"] 1 "" "7"
           "5" "6" Scenario.alice_fails Scenario.alice_fails);
    try reflexivity. discriminate.
Defined.

(** ** The verdict of [test_solution] *)

Lemma filter_length_all {A} (P : A → Prop) `{!∀ x, Decision (P x)} (l : list A) :
  (length (filter P l) ≤ length l)%nat
  ∧ (length (filter P l) = length l ↔ Forall P l).
Proof.
  induction l as [|x l [IHle IHeq]]; simpl.
  - split; [lia|]. split; [constructor|done].
  - rewrite filter_cons. case_decide as Hx; simpl.
    + split; [lia|]. rewrite Forall_cons. split.
      * intros [= Hlen]. split; [done|]. by apply IHeq.
      * intros [_ Hall]. f_equal. by apply IHeq.
    + split; [lia|]. rewrite Forall_cons. split; [lia|tauto].
Qed.

Lemma forallb_Forall_true {A} (f : A → bool) (l : list A) :
  forallb f l = true ↔ Forall (λ x, f x = true) l.
Proof. apply forallb_true_Forall. Qed.

Lemma M_bind_assoc {S A B C} (m : StE S A) (f : A → StE S B) (g : B → StE S C) w :
  M_bind (M_bind m f) g w = M_bind m (λ a, M_bind (f a) g) w.
Proof. unfold M_bind. by destruct (m w) as [[a|e] w']. Qed.

Lemma M_bind_ext {S A B} (m : StE S A) (f g : A → StE S B) w :
  (∀ a w', f a w' = g a w') → M_bind m f w = M_bind m g w.
Proof. intros H. unfold M_bind. destruct (m w) as [[a|e] w']; [apply H|done]. Qed.

Lemma for_each_on_result {A L L'} (f : L' → L)
    (body : L → A → M L) (body' : L' → A → M L') :
  (∀ s x w, body (f s) x w = on_result f (body' s x w)) →
  ∀ l s w, for_each body (f s) l w = on_result f (for_each body' s l w).
Proof.
  intros Hbody l. induction l as [|x l IH]; intros s w; [reflexivity|].
  simpl. unfold M_bind. rewrite Hbody.
  destruct (body' s x w) as [[s'|e] w']; simpl; [apply IH|reflexivity].
Qed.

Section Verdict.
Variable cfg : Config.
Variable rt : Runtime.
Variable problem : Z.
Variables user userPath userOutputDirectory sampleFile : string.
Variables generateHTML openHTML : bool.

Abbreviation checking convertedLanguageBlock :=
  (check_run cfg rt problem user convertedLanguageBlock sampleFile
     userOutputDirectory generateHTML openHTML).

Lemma check_run_counts convertedLanguageBlock n run w n' w' :
  checking convertedLanguageBlock n run w = (Ok n', w') →
  n' = (n + if run_matches run then 1 else 0)%nat.
Proof.
  unfold check_run, run_matches. case_bool_decide; simpl.
  - unfold M_ret. intros [= <- <-]. lia.
  - unfold M_bind, M_ret, lift, tell, act. intros Hrun.
    repeat case_match; simplify_eq; lia.
Qed.

Lemma check_loop_counts convertedLanguageBlock runs n w n' w' :
  for_each (checking convertedLanguageBlock) n runs w = (Ok n', w') →
  n' = (n + length (filter (λ r, run_matches r = true) runs))%nat.
Proof.
  revert n w. induction runs as [|run runs IH]; intros n w; simpl.
  - unfold M_ret. intros [= <- <-]. lia.
  - unfold M_bind.
    destruct (checking _ n run w) as [[n1|e] w1] eqn:Hrun; [|discriminate].
    apply check_run_counts in Hrun as ->. intros ->%IH.
    rewrite filter_cons. destruct (run_matches run) eqn:Hm.
    + rewrite decide_True by done. simpl. lia.
    + rewrite decide_False by done. lia.
Qed.

(** The count of the correct runs reaches the length of the batch
    exactly when every run matches. *)
Lemma check_loop_all convertedLanguageBlock runs w n w' :
  for_each (checking convertedLanguageBlock) 0%nat runs w = (Ok n, w') →
  bool_decide (n = length runs) = forallb run_matches runs.
Proof.
  intros ->%check_loop_counts. simpl.
  destruct (filter_length_all (λ r, run_matches r = true) runs) as [_ Hall].
  destruct (forallb run_matches runs) eqn:Hb.
  - apply bool_decide_eq_true. apply Hall. by apply forallb_Forall_true.
  - apply bool_decide_eq_false. intros Heq. apply Hall in Heq.
    apply forallb_Forall_true in Heq. congruence.
Qed.

Lemma tally_snoc found a :
  tally (found ++ [a])
  = (S (tally found).1,
     if attempt_correct a then S (tally found).2 else (tally found).2).
Proof.
  unfold tally. simpl. rewrite length_app, filter_app, length_app. simpl.
  rewrite filter_cons, filter_nil. f_equal; [lia|].
  destruct (attempt_correct a).
  - rewrite decide_True by done. simpl. lia.
  - rewrite decide_False by done. simpl. lia.
Qed.

Lemma try_language_collects inputFileList possibleSolution found languageBlock w :
  try_language cfg rt problem user userPath userOutputDirectory sampleFile
    inputFileList generateHTML openHTML possibleSolution (tally found) languageBlock w
  = on_result tally
      (collect_language cfg rt problem user userPath userOutputDirectory sampleFile
         inputFileList generateHTML openHTML possibleSolution found languageBlock w).
Proof.
  unfold try_language, collect_language, M_bind.
  destruct (lift _ w) as [[extension|e] w0]; [|reflexivity].
  case_bool_decide; [|reflexivity].
  destruct (lift _ w0) as [[convertedLanguageBlock|e] w1]; [|reflexivity].
  destruct (compile_solution rt convertedLanguageBlock w1) as [[[|]|e] w2];
    [| |reflexivity].
  - destruct (run_solution _ _ _ _ _ w2) as [[runs|e] w3]; [|reflexivity].
    destruct (for_each _ 0%nat runs w3) as [[n|e] w4] eqn:Hloop; [|reflexivity].
    apply check_loop_all in Hloop. rewrite Hloop. unfold M_ret. simpl.
    rewrite tally_snoc. simpl. by destruct (forallb run_matches runs).
  - unfold M_ret. simpl. by rewrite tally_snoc.
Qed.

End Verdict.

Lemma tally_none found : (tally found).1 = 0%nat ↔ found = [].
Proof. unfold tally. simpl. by destruct found. Qed.

Lemma tally_all found :
  (tally found).2 = (tally found).1 ↔ Forall (λ a, attempt_correct a = true) found.
Proof. unfold tally. simpl. apply filter_length_all. Qed.

(** X8. [test_solution] gives the verdict of the attempts it makes: false
    with a report when the user is not valid or no file of the user's
    directory is named after the problem with a language's source
    extension; otherwise true exactly when every attempt compiled and
    every run of its batch matched. In particular one attempt that does
    not compile makes the user fail, and an attempt with an empty batch
    counts as correct. *)
Theorem test_solution_verdict (cfg : Config) (rt : Runtime) (problem : Z)
    (user : string) (skipSample skipCorner generateHTML openHTML : bool)
    (w : Fs.world) :
  test_solution cfg rt problem user skipSample skipCorner generateHTML openHTML w
  = M_bind
      (found_attempts cfg rt problem user skipSample skipCorner generateHTML openHTML)
      (verdict problem user) w
  ∧ (∀ w',
       test_solution cfg rt problem user skipSample skipCorner generateHTML openHTML w
       = (Ok true, w')
       ↔ ∃ found,
           found_attempts cfg rt problem user skipSample skipCorner
             generateHTML openHTML w = (Ok (Some found), w')
           ∧ found ≠ []
           ∧ Forall (λ a, attempt_correct a = true) found)
  ∧ attempt_correct CompileFailed = false
  ∧ attempt_correct (Ran []) = true.
Proof.
  assert (test_solution cfg rt problem user skipSample skipCorner
            generateHTML openHTML w
          = M_bind
              (found_attempts cfg rt problem user skipSample skipCorner
                 generateHTML openHTML)
              (verdict problem user) w) as Heq.
  { unfold test_solution, found_attempts. cbv zeta.
    rewrite M_bind_assoc. apply M_bind_ext. intros isDirectory w0.
    rewrite M_bind_assoc. apply M_bind_ext. intros isWriter w1.
    destruct (negb isDirectory || negb isWriter).
    { rewrite M_bind_assoc. apply M_bind_ext. by intros [] w2. }
    rewrite M_bind_assoc. apply M_bind_ext. intros hasOutputDirectory w2.
    rewrite M_bind_assoc. apply M_bind_ext. intros [] w3.
    rewrite M_bind_assoc. apply M_bind_ext. intros inputFileList w4.
    rewrite M_bind_assoc. apply M_bind_ext. intros entries w5.
    rewrite M_bind_assoc. unfold M_bind.
    change (0%nat, 0%nat) with (tally []).
    rewrite (for_each_on_result tally _
      (λ found possibleSolution,
         for_each (collect_language cfg rt problem user (user_path cfg user)
                     (user_output_path cfg user)
                     (case_path cfg (test_path cfg) problem
                        (sample_case_extension (definitions cfg))
                        (input_file_ending (definitions cfg)))
                     inputFileList generateHTML openHTML possibleSolution)
           found (languages cfg))).
    2:{ intros found possibleSolution w6. apply for_each_on_result.
        intros found' languageBlock w7. apply try_language_collects. }
    destruct (for_each _ [] entries w5) as [[found|e] w6]; [|reflexivity].
    unfold on_result, M_ret, verdict, tell.
    destruct found as [|a found]; [reflexivity|].
    rewrite bool_decide_false by (rewrite tally_none; done).
    destruct (forallb attempt_correct (a :: found)) eqn:Hall.
    - rewrite bool_decide_true; [reflexivity|].
      apply tally_all. by apply forallb_Forall_true.
    - rewrite bool_decide_false; [reflexivity|].
      intros H%tally_all%forallb_Forall_true. congruence. }
  split; [exact Heq|]. split; [|done].
  intros w'. rewrite Heq. unfold M_bind. split.
  - destruct (found_attempts _ _ _ _ _ _ _ _ w) as [[[found|]|e] w1];
      [| |discriminate].
    + destruct found as [|a found].
      * unfold verdict, M_bind, tell, M_ret. discriminate.
      * unfold verdict, M_ret. intros [= Hall <-]. exists (a :: found).
        split; [done|]. split; [done|]. by apply forallb_Forall_true.
    + unfold verdict, M_ret. discriminate.
  - intros (found & -> & Hne & Hall). destruct found as [|a found]; [done|].
    unfold verdict, M_ret. apply forallb_Forall_true in Hall. by rewrite Hall.
Qed.

(** ** The start of the script *)

Lemma validate_unbound run_tests message w :
  Startup.validate run_tests false "conf_languages" message w
  = Some (Startup.NameError "conf_languages", w).
Proof.
  unfold Startup.validate.
  assert (bool_decide ("conf_languages" ∈ Startup.module_globals) = false) as ->
    by (vm_compute; reflexivity).
  reflexivity.
Qed.

(** X9. The start of the script. When a configuration file is missing
    it prints the message that names the first missing file, in the
    order definitions, languages, variables, and exits with status 1,
    with or without [--skipvalidation]. When the three files are there:
    without [--skipvalidation] it stops on the name [conf_languages],
    which nothing bound, whatever the validation tests would say, before
    reading any file and without touching the store; with
    [--skipvalidation] it loads the three texts as a text-mode read
    gives them. So without [--skipvalidation] the configuration is never
    loaded. *)
Theorem startup_needs_skipvalidation (run_tests : string → bool) (here : string)
    (skipvalidation : bool) (w : Fs.world) :
  (Fs.isfile (Startup.definitions_file here) w = false →
   Startup.startup run_tests here skipvalidation w
   = (Startup.Exit 1,
      Fs.print ("Error: Definitions file " +:+ Startup.definitions_file here
                +:+ " cannot be found.") w))
  ∧ (Fs.isfile (Startup.definitions_file here) w = true →
     Fs.isfile (Startup.languages_file here) w = false →
     Startup.startup run_tests here skipvalidation w
     = (Startup.Exit 1,
        Fs.print ("Error: Langauges file " +:+ Startup.languages_file here
                  +:+ " cannot be found.") w))
  ∧ (Fs.isfile (Startup.definitions_file here) w = true →
     Fs.isfile (Startup.languages_file here) w = true →
     Fs.isfile (Startup.variables_file here) w = false →
     Startup.startup run_tests here skipvalidation w
     = (Startup.Exit 1,
        Fs.print ("Error: Variables file " +:+ Startup.variables_file here
                  +:+ " cannot be found") w))
  ∧ (Fs.isfile (Startup.definitions_file here) w = true →
     Fs.isfile (Startup.languages_file here) w = true →
     Fs.isfile (Startup.variables_file here) w = true →
     Startup.startup run_tests here false w = (Startup.NameError "conf_languages", w)
     ∧ ∃ d l v,
         Fs.read (Startup.definitions_file here) w = Ok d
         ∧ Fs.read (Startup.languages_file here) w = Ok l
         ∧ Fs.read (Startup.variables_file here) w = Ok v
         ∧ Startup.startup run_tests here true w
           = (Startup.Loaded (PyStr.universal_newlines d) (PyStr.universal_newlines l)
                (PyStr.universal_newlines v), w))
  ∧ (∀ d l v, (Startup.startup run_tests here false w).1 ≠ Startup.Loaded d l v).
Proof.
  split; [|split; [|split; [|split]]].
  - intros Hd. unfold Startup.startup. rewrite Hd. reflexivity.
  - intros Hd Hl. unfold Startup.startup. rewrite Hd, Hl. reflexivity.
  - intros Hd Hl Hv. unfold Startup.startup. rewrite Hd, Hl, Hv. reflexivity.
  - intros Hd Hl Hv. unfold Startup.startup. rewrite Hd, Hl, Hv.
    rewrite validate_unbound. cbn [negb].
    split; [reflexivity|].
    unfold Fs.isfile in Hd, Hl, Hv.
    apply bool_decide_eq_true in Hd as [d Hd], Hl as [l Hl], Hv as [v Hv].
    exists d, l, v. unfold Startup.validate, Startup.load, Fs.read_text, Fs.read.
    rewrite Hd, Hl, Hv. done.
  - intros d l v. unfold Startup.startup. rewrite validate_unbound.
    repeat case_match; simpl; discriminate.
Qed.

Lemma startup_needs_skipvalidation_witness :
  Startup.startup (λ _, true) "/repo" true Scenario.alice_cat
  = (Startup.Exit 1,
     Fs.print "Error: Definitions file /repo/conf/definitions.json cannot be found."
       Scenario.alice_cat)
  ∧ Startup.startup (λ _, true) "/repo" false Cases.configured
    = (Startup.NameError "conf_languages", Cases.configured)
  ∧ Startup.startup (λ _, true) "/repo" true Cases.configured
    = (Startup.Loaded "{definitions}" "{languages}" "{variables}", Cases.configured).
Proof.
  split; [|split].
  - destruct (startup_needs_skipvalidation (λ _, true) "/repo" true Scenario.alice_cat)
      as (Hmissing & _).
    apply Hmissing. reflexivity.
  - destruct (startup_needs_skipvalidation (λ _, true) "/repo" false Cases.configured)
      as (_ & _ & _ & Hthere & _).
    apply Hthere; reflexivity.
  - destruct (startup_needs_skipvalidation (λ _, true) "/repo" false Cases.configured)
      as (_ & _ & _ & Hthere & _).
    destruct Hthere as (_ & d & l & v & Hd & Hl & Hv & Hload); [reflexivity..|].
    injection Hd as <-. injection Hl as <-. injection Hv as <-. exact Hload.
Defined.

(** ** The problem and name arguments *)

Lemma elem_of_range (a b p : Z) : p ∈ Args.range a b ↔ a ≤ p < b.
Proof. unfold Args.range. rewrite elem_of_seqZ. lia. Qed.

Section ProblemArgument.
Variable py_int : string → option Z.
Variable problemCount : Z.

(** X10. The open-ended forms of the problem argument: [a] selects the
    problems 1 to [problem_count], [+N] the problems above [N] up to
    [problem_count], and [-N] the problems from 1 up to [N] excluded,
    which is not bounded by [problem_count]; the empty string raises
    [IndexError]. *)
Theorem problems_to_do_open_forms (rest : string) (n : Z) :
  py_int rest = Some n →
  (∃ l, Args.problems_to_do py_int problemCount "a" = Args.Problems l
        ∧ ∀ p, p ∈ l ↔ 1 ≤ p ≤ problemCount)
  ∧ (∃ l, Args.problems_to_do py_int problemCount (String "+" rest) = Args.Problems l
          ∧ ∀ p, p ∈ l ↔ n < p ≤ problemCount)
  ∧ (∃ l, Args.problems_to_do py_int problemCount (String "-" rest) = Args.Problems l
          ∧ ∀ p, p ∈ l ↔ 1 ≤ p < n)
  ∧ Args.problems_to_do py_int problemCount "" = Args.IndexErr.
Proof.
  intros Hint. split; [|split; [|split]].
  - eexists. split; [reflexivity|]. intros p. rewrite elem_of_range. lia.
  - eexists. split.
    + unfold Args.problems_to_do. rewrite bool_decide_false by discriminate.
      simpl. unfold Args.with_int. rewrite Hint. reflexivity.
    + intros p. rewrite elem_of_range. lia.
  - eexists. split.
    + unfold Args.problems_to_do. rewrite bool_decide_false by discriminate.
      simpl. unfold Args.with_int. rewrite Hint. reflexivity.
    + intros p. rewrite elem_of_range. lia.
  - reflexivity.
Qed.

(** X11. An argument that does not start with a sign and holds a dash is
    read as the inclusive range between the number before its first dash
    and the number after it; an argument without a dash is read as one
    problem. Neither is checked against [problem_count]. *)
Theorem problems_to_do_range (arg : string) (first : ascii) (rest : string) (a b : Z) :
  arg = String first rest →
  arg ≠ "a" →
  first ≠ "+"%char → first ≠ "-"%char →
  (PyStr.has_char "-" arg = true →
   py_int (PyStr.take (Args.index_of "-" arg) arg) = Some a →
   py_int (PyStr.drop (S (Args.index_of "-" arg)) arg) = Some b →
   ∃ l, Args.problems_to_do py_int problemCount arg = Args.Problems l
        ∧ ∀ p, p ∈ l ↔ a ≤ p ≤ b)
  ∧ (PyStr.has_char "-" arg = false →
     py_int arg = Some a →
     Args.problems_to_do py_int problemCount arg = Args.Problems [a]).
Proof.
  intros Harg Hall Hplus Hminus.
  assert (
    Args.problems_to_do py_int problemCount arg
    = if PyStr.has_char "-" arg
      then Args.with_int py_int (PyStr.take (Args.index_of "-" arg) arg) (λ a,
             Args.with_int py_int (PyStr.drop (S (Args.index_of "-" arg)) arg) (λ b,
               Args.Problems (Args.range a (b + 1))))
      else Args.with_int py_int arg (λ n, Args.Problems [n])) as Hparse.
  { unfold Args.problems_to_do.
    rewrite bool_decide_false by exact Hall. subst arg.
    rewrite (proj2 (ascii_eqb_neq first "+")) by exact Hplus.
    rewrite (proj2 (ascii_eqb_neq first "-")) by exact Hminus.
    reflexivity. }
  split.
  - intros Hdash Ha Hb. eexists. split.
    + rewrite Hparse, Hdash. unfold Args.with_int. rewrite Ha, Hb. reflexivity.
    + intros p. rewrite elem_of_range. lia.
  - intros Hdash Ha. rewrite Hparse, Hdash. unfold Args.with_int.
    by rewrite Ha.
Qed.

End ProblemArgument.

Lemma problems_to_do_open_forms_witness :
  (∃ l, Args.problems_to_do Cases.toy_int 5 "a" = Args.Problems l
        ∧ ∀ p, p ∈ l ↔ 1 ≤ p ≤ 5)
  ∧ (∃ l, Args.problems_to_do Cases.toy_int 5 "+3" = Args.Problems l
          ∧ ∀ p, p ∈ l ↔ 3 < p ≤ 5)
  ∧ (∃ l, Args.problems_to_do Cases.toy_int 5 "-3" = Args.Problems l
          ∧ ∀ p, p ∈ l ↔ 1 ≤ p < 3)
  ∧ Args.problems_to_do Cases.toy_int 5 "" = Args.IndexErr.
Proof.
  apply (problems_to_do_open_forms Cases.toy_int 5 "3" 3). reflexivity.
Defined.

Lemma problems_to_do_range_witness :
  (PyStr.has_char "-" "2-4" = true →
   Cases.toy_int (PyStr.take (Args.index_of "-" "2-4") "2-4") = Some 2 →
   Cases.toy_int (PyStr.drop (S (Args.index_of "-" "2-4")) "2-4") = Some 4 →
   ∃ l, Args.problems_to_do Cases.toy_int 5 "2-4" = Args.Problems l
        ∧ ∀ p, p ∈ l ↔ 2 ≤ p ≤ 4)
  ∧ (PyStr.has_char "-" "2-4" = false →
     Cases.toy_int "2-4" = Some 2 →
     Args.problems_to_do Cases.toy_int 5 "2-4" = Args.Problems [2]).
Proof.
  apply (problems_to_do_range Cases.toy_int 5 "2-4" "2" "-4" 2 4);
    [reflexivity|discriminate..].
Defined.

(** ** The people to test *)

Section People.
Variable cfg : Config.
Variable rt : Runtime.

(** X12. With [a] as the first name, the people to test are the entries
    of the writers directory, in the order of the listing, except the
    entries named like the writers directory itself; the names given
    after [a] are ignored and the store is left alone. Any other list of
    names is taken as it is. *)
Theorem people_to_test_all (rest entries names : list string) (first : string)
    (w : Fs.world) :
  Fs.listdir (writers_path cfg) w = Ok entries →
  first ≠ "a" →
  (∃ people,
     Args.people_to_test cfg ("a" :: rest) w = (Ok people, w)
     ∧ people `sublist_of` entries
     ∧ ∀ person, person ∈ people
         ↔ person ∈ entries ∧ person ≠ OsPath.basename (writers_path cfg))
  ∧ Args.people_to_test cfg (first :: names) w = (Ok (first :: names), w).
Proof.
  intros Hlist Hfirst. split.
  - eexists. split; [|split].
    + unfold Args.people_to_test. rewrite bool_decide_true by done.
      unfold M_bind. rewrite Hlist. reflexivity.
    + apply sublist_filter.
    + intros person. rewrite list_elem_of_filter. tauto.
  - unfold Args.people_to_test. by rewrite bool_decide_false.
Qed.

(** With nobody to test, the loop of a problem counts zero passes out of
    zero people, finds the empty list consistent and then reads
    [peopleToTest[0]]. *)
Lemma main_problem_nobody skipsample skipcorner htmldiffs openhtml problem w :
  main_problem cfg rt skipsample skipcorner htmldiffs openhtml [] problem w
  = (Raise IndexError, w).
Proof. reflexivity. Qed.

(** X13. When the writers directory lists nobody but (at most) entries
    named like itself, testing everybody ([a]) ends in [IndexError] on the
    first problem, with nothing tested, compared or copied. *)
Theorem nobody_to_test_raises (rest entries : list string)
    (skipsample skipcorner htmldiffs openhtml : bool)
    (problem : Z) (problems : list Z) (w : Fs.world) :
  Fs.listdir (writers_path cfg) w = Ok entries →
  Forall (λ person, person = OsPath.basename (writers_path cfg)) entries →
  M_bind (Args.people_to_test cfg ("a" :: rest))
    (λ peopleToTest,
       main cfg rt skipsample skipcorner htmldiffs openhtml (problem :: problems)
         peopleToTest) w
  = (Raise IndexError, w).
Proof.
  intros Hlist Hall. unfold Args.people_to_test.
  rewrite bool_decide_true by done. unfold M_bind at 1 2. rewrite Hlist.
  unfold M_ret at 1.
  assert (filter (λ person, person ≠ OsPath.basename (writers_path cfg)) entries
          = []) as ->.
  { clear Hlist. induction Hall as [|x l Hx _ IH]; [done|].
    rewrite filter_cons, decide_False by (by intros ?). exact IH. }
  reflexivity.
Qed.

End People.

Lemma people_to_test_all_witness :
  (∃ people,
     Args.people_to_test Scenario.cfg ["a"; "zoe"] Scenario.alice_and_bob
     = (Ok people, Scenario.alice_and_bob)
     ∧ people `sublist_of` ["alice"; "bob"]
     ∧ ∀ person, person ∈ people
         ↔ person ∈ ["alice"; "bob"]
           ∧ person ≠ OsPath.basename (writers_path Scenario.cfg))
  ∧ Args.people_to_test Scenario.cfg ["bob"; "alice"] Scenario.alice_and_bob
    = (Ok ["bob"; "alice"], Scenario.alice_and_bob).
Proof.
  apply (people_to_test_all Scenario.cfg ["zoe"] ["alice"; "bob"] ["alice"] "bob"
           Scenario.alice_and_bob).
  - vm_compute. reflexivity.
  - discriminate.
Defined.

Lemma nobody_to_test_raises_witness :
  M_bind (Args.people_to_test Scenario.cfg ["a"])
    (λ peopleToTest,
       main Scenario.cfg Scenario.rt false false false false [1; 2] peopleToTest)
    Cases.configured
  = (Raise IndexError, Cases.configured).
Proof.
  apply (nobody_to_test_raises Scenario.cfg Scenario.rt [] [] false false false false
           1 [2] Cases.configured).
  - vm_compute. reflexivity.
  - constructor.
Defined.

(** ** Edge cases of [test_solution] *)

Section TestEdges.
Variable cfg : Config.
Variable rt : Runtime.

(** X14. For a user whose directory is missing, or who has no link in
    the writers directory, [test_solution] returns false after printing
    that the user is not valid, and does nothing else: no output
    directory is made and nothing is listed, compiled or run. *)
Theorem test_solution_invalid_user (problem : Z) (user : string)
    (skipSample skipCorner generateHTML openHTML : bool) (w : Fs.world) :
  Fs.isdir (user_path cfg user) w = false
  ∨ Fs.islink (OsPath.join (writers_path cfg) user) w = false →
  test_solution cfg rt problem user skipSample skipCorner generateHTML openHTML w
  = (Ok false, Fs.print (user +:+ " is not a valid user") w).
Proof.
  intros Hinvalid. unfold test_solution, M_bind, ask. cbv zeta.
  assert (negb (Fs.isdir (user_path cfg user) w)
          || negb (Fs.islink (OsPath.join (writers_path cfg) user) w) = true) as ->.
  { destruct Hinvalid as [-> | ->]; [done|]. apply orb_true_r. }
  reflexivity.
Qed.

(** X15. [input_file_list] only reads the store, and returns exactly
    the cases wanted: of the sample, corner and generated inputs, in that
    order, those that are not skipped and whose file exists. So every
    file of the list exists; a case that is skipped is left out, whether
    or not the other one is skipped too; a sample case that is not
    skipped and exists comes first, a corner case that is not skipped and
    exists is in the list, and the generated case, which cannot be
    skipped, comes last whenever its file exists. *)
Theorem input_file_list_order (problem : Z) (skipSample skipCorner : bool)
    (w : Fs.world) :
  ∃ files,
    input_file_list cfg problem skipSample skipCorner w = (Ok files, w)
    ∧ files = wanted_inputs cfg problem skipSample skipCorner w
    ∧ files `sublist_of`
        [ sample_input cfg problem; corner_input cfg problem;
          generated_input cfg problem ]
    ∧ Forall (λ file, Fs.isfile file w = true) files
    ∧ (skipSample = true →
       files `sublist_of` [corner_input cfg problem; generated_input cfg problem])
    ∧ (skipCorner = true →
       files `sublist_of` [sample_input cfg problem; generated_input cfg problem])
    ∧ (skipSample = false → Fs.isfile (sample_input cfg problem) w = true →
       head files = Some (sample_input cfg problem))
    ∧ (skipCorner = false → Fs.isfile (corner_input cfg problem) w = true →
       corner_input cfg problem ∈ files)
    ∧ (Fs.isfile (generated_input cfg problem) w = true →
       last files = Some (generated_input cfg problem))
    ∧ (skipSample = true → skipCorner = true →
       files = if Fs.isfile (generated_input cfg problem) w
               then [generated_input cfg problem] else []).
Proof.
  eexists. split; [reflexivity|]. cbv beta.
  unfold wanted_inputs, generated_input, sample_input, corner_input.
  destruct (Fs.isfile (case_path cfg (test_path cfg) problem
              (sample_case_extension _) _) w) eqn:Hs,
    (Fs.isfile (case_path cfg (test_path cfg) problem
              (corner_case_extension _) _) w) eqn:Hc,
    (Fs.isfile (case_path cfg (test_path cfg) problem
              (generated_case_extension _) _) w) eqn:Hg,
    skipSample, skipCorner; simpl; rewrite ?Hs, ?Hc, ?Hg; simpl;
    (split; [reflexivity|]);
    (split;
     [repeat first [apply sublist_nil | apply sublist_skip | apply sublist_cons]|]);
    (split; [by repeat constructor|]);
    (split;
     [intros; try done;
      repeat first [apply sublist_nil | apply sublist_skip | apply sublist_cons]|]);
    (split;
     [intros; try done;
      repeat first [apply sublist_nil | apply sublist_skip | apply sublist_cons]|]);
    (split; [intros; try done|]);
    (split; [intros; try done; set_solver|]);
    split; intros; done.
Qed.

(** X16. With no input file to run, a solution whose language block is
    well formed and that compiles is counted as found and as correct
    without being run. *)
Theorem try_language_without_inputs (problem : Z)
    (user userPath userOutputDirectory sampleFile : string)
    (generateHTML openHTML : bool) (possibleSolution extension : string)
    (counts : nat * nat) (languageBlock convertedLanguageBlock : LanguageBlock)
    (runCommand : list pyval) (w w1 : Fs.world) :
  get_source_extension languageBlock = Ok (VStr extension) →
  possibleSolution = problem_string cfg problem +:+ "." +:+ extension →
  replace_language_vars cfg languageBlock possibleSolution userPath
  = Ok convertedLanguageBlock →
  compile_solution rt convertedLanguageBlock w = (Ok true, w1) →
  command_line convertedLanguageBlock "runCommand" "runArguments" = Ok runCommand →
  try_language cfg rt problem user userPath userOutputDirectory sampleFile []
    generateHTML openHTML possibleSolution counts languageBlock w
  = (Ok (S counts.1, S counts.2), w1).
Proof.
  intros Hext Hname Hconv Hcompile Hcommand. unfold try_language.
  unfold M_bind at 1. unfold lift at 1. rewrite Hext. simpl.
  rewrite bool_decide_true by exact Hname.
  unfold M_bind at 1. unfold lift at 1. rewrite Hconv.
  unfold M_bind at 1. rewrite Hcompile.
  unfold run_solution, M_bind, lift. rewrite Hcommand. reflexivity.
Qed.

(** X17. A language block with neither [compileExtension] nor
    [runExtension] stops the test of any file with [KeyError], before
    the file name is even compared; so does, with [TypeError], a source
    extension that is not a string. *)
Theorem try_language_malformed_block (problem : Z)
    (user userPath userOutputDirectory sampleFile : string)
    (inputFileList : list string) (generateHTML openHTML : bool)
    (possibleSolution : string) (counts : nat * nat)
    (languageBlock : LanguageBlock) (w : Fs.world) :
  (languageBlock !! "compileExtension" = None →
   languageBlock !! "runExtension" = None →
   try_language cfg rt problem user userPath userOutputDirectory sampleFile
     inputFileList generateHTML openHTML possibleSolution counts languageBlock w
   = (Raise (KeyError "runExtension"), w))
  ∧ (∀ v, get_source_extension languageBlock = Ok v → is_str v = false →
     try_language cfg rt problem user userPath userOutputDirectory sampleFile
       inputFileList generateHTML openHTML possibleSolution counts languageBlock w
     = (Raise TypeError, w)).
Proof.
  split.
  - intros Hc Hr. unfold try_language, M_bind, lift, get_source_extension,
      contains, getitem.
    rewrite Hc, Hr. rewrite bool_decide_false by (intros [? ?]; discriminate).
    reflexivity.
  - intros v Hv Hstr. unfold try_language, M_bind, lift. rewrite Hv.
    by destruct v.
Qed.

End TestEdges.

Lemma test_solution_invalid_user_witness :
  test_solution Scenario.cfg Scenario.rt 1 "zoe" false false false false
    Scenario.alice_cat
  = (Ok false, Fs.print "zoe is not a valid user" Scenario.alice_cat).
Proof.
  apply (test_solution_invalid_user Scenario.cfg Scenario.rt 1 "zoe" false false
           false false Scenario.alice_cat).
  left. reflexivity.
Defined.

Lemma try_language_without_inputs_witness :
  try_language Scenario.cfg Scenario.rt 1 "alice" "/repo/alice" "/repo/alice/output"
    Scenario.sample_in [] false false "Problem1.py" (0%nat, 0%nat) Scenario.python
    Scenario.alice_fails
  = (Ok (1%nat, 1%nat), Scenario.alice_fails).
Proof.
  apply (try_language_without_inputs Scenario.cfg Scenario.rt 1 "alice" "/repo/alice"
           "/repo/alice/output" Scenario.sample_in false false "Problem1.py" "py"
           (0%nat, 0%nat) Scenario.python Scenario.alice_python
           Scenario.alice_command Scenario.alice_fails Scenario.alice_fails);
    vm_compute; reflexivity.
Defined.

Lemma try_language_malformed_block_witness :
  try_language Scenario.cfg Scenario.rt 1 "alice" "/repo/alice" "/repo/alice/output"
    Scenario.sample_in [] false false "notes.txt" (0%nat, 0%nat)
    {["language" := VStr "Broken"]} Scenario.alice_cat
  = (Raise (KeyError "runExtension"), Scenario.alice_cat).
Proof.
  apply (try_language_malformed_block Scenario.cfg Scenario.rt 1 "alice" "/repo/alice"
           "/repo/alice/output" Scenario.sample_in [] false false "notes.txt"
           (0%nat, 0%nat) {["language" := VStr "Broken"]} Scenario.alice_cat);
    reflexivity.
Defined.

Lemma input_file_list_order_witness :
  (∃ files,
    input_file_list Scenario.cfg 1 true true Scenario.alice_cat
    = (Ok files, Scenario.alice_cat)
    ∧ files = [Scenario.generated_in]
    ∧ last files = Some (generated_input Scenario.cfg 1))
  ∧ (∃ files,
      input_file_list Scenario.cfg 1 true false Scenario.alice_and_bob
      = (Ok files, Scenario.alice_and_bob)
      ∧ files = ["/repo/tests/Problem1_corner.in"; Scenario.generated_in]
      ∧ files `sublist_of` [corner_input Scenario.cfg 1; generated_input Scenario.cfg 1])
  ∧ (∃ files,
      input_file_list Scenario.cfg 1 false true Scenario.alice_and_bob
      = (Ok files, Scenario.alice_and_bob)
      ∧ files = [Scenario.sample_in; Scenario.generated_in]
      ∧ head files = Some (sample_input Scenario.cfg 1)).
Proof.
  split; [|split].
  - destruct (input_file_list_order Scenario.cfg 1 true true Scenario.alice_cat)
      as (files & Hrun & _ & _ & _ & _ & _ & _ & _ & Hlast & Hskip).
    exists files. split; [exact Hrun|]. split.
    + by rewrite Hskip.
    + apply Hlast. reflexivity.
  - destruct (input_file_list_order Scenario.cfg 1 true false Scenario.alice_and_bob)
      as (files & Hrun & Hexact & _ & _ & Hsample & _).
    exists files. split; [exact Hrun|]. split.
    + rewrite Hexact. reflexivity.
    + apply Hsample. reflexivity.
  - destruct (input_file_list_order Scenario.cfg 1 false true Scenario.alice_and_bob)
      as (files & Hrun & Hexact & _ & _ & _ & _ & Hfirst & _).
    exists files. split; [exact Hrun|]. split.
    + rewrite Hexact. reflexivity.
    + apply Hfirst; reflexivity.
Defined.

Lemma test_solution_verdict_witness :
  (test_solution Scenario.cfg Scenario.rt 1 "carol" false false false false
     Cases.carol_two_solutions).1 = Ok false
  ∧ ∃ runs,
      (found_attempts Scenario.cfg Scenario.rt 1 "carol" false false false false
         Cases.carol_two_solutions).1 = Ok (Some [Ran runs; CompileFailed])
      ∧ forallb run_matches runs = true.
Proof.
  destruct (test_solution_verdict Scenario.cfg Scenario.rt 1 "carol" false false
              false false Cases.carol_two_solutions) as [Heq _].
  rewrite Heq. split; [vm_compute; reflexivity|].
  eexists. split; vm_compute; reflexivity.
Defined.

Lemma compare_generated_outputs_true_witness :
  compare_generated_outputs Scenario.cfg 1 ["heidi"; "ivan"] Cases.heidi_and_ivan
  = (Ok true, Cases.heidi_and_ivan)
  ∧ Fs.read (generated_path Scenario.cfg 1 "heidi") Cases.heidi_and_ivan
    = Ok ("7" +:+ Cases.crlf)
  ∧ Fs.read (generated_path Scenario.cfg 1 "ivan") Cases.heidi_and_ivan
    = Ok ("7" +:+ Cases.lf).
Proof.
  split; [|split; reflexivity].
  apply (compare_generated_outputs_true Scenario.cfg 1 ["heidi"; "ivan"]
           Cases.heidi_and_ivan).
  assert (∀ x, x ∈ ["heidi"; "ivan"] →
            generated_output Scenario.cfg 1 x Cases.heidi_and_ivan
            = "7" +:+ Cases.lf) as Hsame.
  { intros x Hx. repeat (apply elem_of_cons in Hx as [->|Hx]); [reflexivity..|].
    by apply elem_of_nil in Hx. }
  intros u v Hu Hv. by rewrite (Hsame u Hu), (Hsame v Hv).
Defined.

Lemma compare_generated_outputs_false_witness :
  ∃ before a b after,
    ["alice"; "bob"] = before ++ a :: b :: after
    ∧ Forall (λ u, generated_output Scenario.cfg 1 u
                     (Fs.set_files
                        (<[ ["repo"; "alice"; "Problem1_generated.out"] := "7" ]>
                           (Fs.files Scenario.alice_and_bob))
                        Scenario.alice_and_bob)
                   = generated_output Scenario.cfg 1 a
                       (Fs.set_files
                          (<[ ["repo"; "alice"; "Problem1_generated.out"] := "7" ]>
                             (Fs.files Scenario.alice_and_bob))
                          Scenario.alice_and_bob)) before
    ∧ generated_output Scenario.cfg 1 b
        (Fs.set_files
           (<[ ["repo"; "alice"; "Problem1_generated.out"] := "7" ]>
              (Fs.files Scenario.alice_and_bob))
           Scenario.alice_and_bob)
      ≠ generated_output Scenario.cfg 1 a
          (Fs.set_files
             (<[ ["repo"; "alice"; "Problem1_generated.out"] := "7" ]>
                (Fs.files Scenario.alice_and_bob))
             Scenario.alice_and_bob)
    ∧ Fs.print (mismatch_line "alice" 1 "bob")
        (Fs.set_files
           (<[ ["repo"; "alice"; "Problem1_generated.out"] := "7" ]>
              (Fs.files Scenario.alice_and_bob))
           Scenario.alice_and_bob)
      = Fs.print (mismatch_line a 1 b)
          (Fs.set_files
             (<[ ["repo"; "alice"; "Problem1_generated.out"] := "7" ]>
                (Fs.files Scenario.alice_and_bob))
             Scenario.alice_and_bob).
Proof.
  apply (compare_generated_outputs_false Scenario.cfg 1 ["alice"; "bob"]).
  vm_compute. reflexivity.
Defined.

(** ** [util/fileops.py] *)

Section FileOpsProperties.

Lemma exists_file path w : FileOps.exists_ path FileOps.FILE w = Fs.isfile path w.
Proof.
  unfold FileOps.exists_, FileOps.path_exists. simpl.
  by destruct (Fs.isfile path w), (Fs.isdir path w).
Qed.

Lemma exists_directory path fileType w :
  fileType ≠ FileOps.FILE → FileOps.exists_ path fileType w = Fs.isdir path w.
Proof.
  intros Hkind. unfold FileOps.exists_, FileOps.path_exists.
  rewrite bool_decide_false by done.
  by destruct (Fs.isfile path w), (Fs.isdir path w).
Qed.

(** X20. [make] returns false and leaves the store alone when the path
    already exists as the kind asked for; when it returns true the path
    did not exist as that kind before and does afterwards. *)
Theorem make_creates (path : string) (fileType : Z) (w w' : Fs.world) :
  (FileOps.exists_ path fileType w = true →
   FileOps.make path fileType w = (Ok false, w))
  ∧ (FileOps.make path fileType w = (Ok true, w') →
     FileOps.exists_ path fileType w = false
     ∧ FileOps.exists_ path fileType w' = true).
Proof.
  split.
  - intros H. unfold FileOps.make, M_bind, M_ret, ask. by rewrite H.
  - unfold FileOps.make, M_bind, M_ret, ask.
    destruct (FileOps.exists_ path fileType w) eqn:Hexists; [discriminate|].
    intros Hmake. split; [done|].
    destruct (decide (fileType = FileOps.FILE)) as [->|Hkind].
    + rewrite bool_decide_true in Hmake by done. unfold act, FileOps.mknod in Hmake.
      repeat case_match; simplify_eq.
      rewrite exists_file. unfold Fs.isfile, Fs.set_files. cbn [Fs.files].
      rewrite lookup_insert_eq. by apply bool_decide_eq_true.
    + rewrite bool_decide_false in Hmake by done. unfold act, FileOps.mkdir in Hmake.
      repeat case_match; simplify_eq.
      rewrite exists_directory by done.
      unfold Fs.isdir, Fs.is_dir_key, Fs.set_dirs. cbn [Fs.dirs].
      apply orb_true_intro. right. apply bool_decide_eq_true. set_solver.
Qed.

(** X21. [make] does not report a path taken by the other kind: asked
    for a file where a directory is, or for a directory where a file is,
    it goes on to create it and the creation raises. *)
Theorem make_raises_on_other_kind (path : string) (fileType : Z) (w : Fs.world) :
  (Fs.isdir path w = true → Fs.isfile path w = false →
   FileOps.make path FileOps.FILE w = (Raise OSError, w))
  ∧ (Fs.isfile path w = true → Fs.isdir path w = false →
     fileType ≠ FileOps.FILE →
     FileOps.make path fileType w = (Raise OSError, w)).
Proof.
  split.
  - intros Hdir Hfile. unfold FileOps.make, M_bind, M_ret, ask.
    rewrite exists_file, Hfile. simpl. unfold act, FileOps.mknod, FileOps.occupied.
    unfold Fs.isdir in Hdir. rewrite Hdir, orb_true_r. reflexivity.
  - intros Hfile Hdir Hkind. unfold FileOps.make, M_bind, M_ret, ask.
    rewrite exists_directory, Hdir by done. rewrite bool_decide_false by done.
    unfold act, FileOps.mkdir, FileOps.occupied.
    unfold Fs.isfile in Hfile. rewrite Hfile. reflexivity.
Qed.

(** X22. Removing a file right after [make] created it gives back the
    store as it was. *)
Theorem make_then_remove_file (path : string) (w w1 : Fs.world) :
  FileOps.make path FileOps.FILE w = (Ok true, w1) →
  FileOps.remove path FileOps.FILE w1 = (Ok true, w).
Proof.
  unfold FileOps.make, M_bind, M_ret, ask. rewrite exists_file.
  destruct (Fs.isfile path w) eqn:Hfile; [discriminate|].
  simpl. unfold act, FileOps.mknod. intros Hmake.
  repeat case_match; simplify_eq.
  assert (Fs.files w !! Fs.resolve path = None) as Hfree.
  { unfold Fs.isfile in Hfile. apply bool_decide_eq_false in Hfile.
    destruct (Fs.files w !! Fs.resolve path) eqn:Hlook; [|done].
    exfalso. apply Hfile. eauto. }
  assert (Fs.files (Fs.set_files (<[Fs.resolve path:=""]> (Fs.files w)) w)
            !! Fs.resolve path = Some "") as Hlook.
  { unfold Fs.set_files. cbn [Fs.files]. apply lookup_insert_eq. }
  unfold FileOps.remove, M_bind, M_ret, ask. rewrite exists_file.
  unfold Fs.isfile. rewrite Hlook. rewrite bool_decide_true by eauto.
  cbn [negb]. rewrite bool_decide_true by done.
  unfold act, FileOps.unlink. rewrite Hlook.
  f_equal. destruct w as [files dirs links out opened].
  unfold Fs.set_files. cbn [Fs.files Fs.dirs Fs.links Fs.stdout Fs.browser] in *.
  f_equal. rewrite delete_insert_eq. by apply delete_id.
Qed.

(** X23. After [remove] returned true the path no longer exists as the
    kind asked for (for a directory, unless the path is the root). *)
Theorem remove_removes (path : string) (fileType : Z) (w w' : Fs.world) :
  Fs.resolve path ≠ [] →
  FileOps.remove path fileType w = (Ok true, w') →
  FileOps.exists_ path fileType w = true
  ∧ FileOps.exists_ path fileType w' = false.
Proof.
  intros Hroot. unfold FileOps.remove, M_bind, M_ret, ask.
  destruct (FileOps.exists_ path fileType w) eqn:Hexists; [|discriminate].
  simpl. intros Hremove. split; [done|].
  destruct (decide (fileType = FileOps.FILE)) as [->|Hkind].
  - rewrite bool_decide_true in Hremove by done.
    unfold act, FileOps.unlink in Hremove. repeat case_match; simplify_eq.
    rewrite exists_file. unfold Fs.isfile, Fs.set_files. cbn [Fs.files].
    rewrite lookup_delete_eq.
    apply bool_decide_eq_false. by intros [? ?].
  - rewrite bool_decide_false in Hremove by done.
    unfold FileOps.rmtree in Hremove. repeat case_match; simplify_eq.
    rewrite exists_directory by done. unfold Fs.isdir, Fs.is_dir_key.
    cbn [Fs.dirs].
    rewrite bool_decide_false by done. cbn [orb].
    apply bool_decide_eq_false. rewrite elem_of_filter.
    intros [Hnot _]. apply Hnot. unfold FileOps.under. done.
Qed.

End FileOpsProperties.

Lemma make_creates_witness :
  FileOps.make "/repo/alice/Problem1.py" FileOps.FILE Scenario.alice_cat
  = (Ok false, Scenario.alice_cat)
  ∧ FileOps.exists_ "/repo/alice/notes" FileOps.DIRECTORY Scenario.alice_cat = false
  ∧ FileOps.exists_ "/repo/alice/notes" FileOps.DIRECTORY
      (FileOps.make "/repo/alice/notes" FileOps.DIRECTORY Scenario.alice_cat).2 = true.
Proof.
  split.
  - destruct (make_creates "/repo/alice/Problem1.py" FileOps.FILE Scenario.alice_cat
                Scenario.alice_cat) as [Hthere _].
    apply Hthere. reflexivity.
  - destruct (make_creates "/repo/alice/notes" FileOps.DIRECTORY Scenario.alice_cat
                (FileOps.make "/repo/alice/notes" FileOps.DIRECTORY
                   Scenario.alice_cat).2) as [_ Hmade].
    apply Hmade. vm_compute. reflexivity.
Defined.

Lemma make_raises_on_other_kind_witness :
  FileOps.make "/repo/alice" FileOps.FILE Scenario.alice_cat
  = (Raise OSError, Scenario.alice_cat)
  ∧ FileOps.make "/repo/alice/Problem1.py" FileOps.DIRECTORY Scenario.alice_cat
    = (Raise OSError, Scenario.alice_cat).
Proof.
  split.
  - destruct (make_raises_on_other_kind "/repo/alice" FileOps.FILE Scenario.alice_cat)
      as [Hfile _].
    apply Hfile; reflexivity.
  - destruct (make_raises_on_other_kind "/repo/alice/Problem1.py" FileOps.DIRECTORY
                Scenario.alice_cat) as [_ Hdirectory].
    apply Hdirectory; [reflexivity|reflexivity|discriminate].
Defined.

Lemma make_then_remove_file_witness :
  FileOps.remove "/repo/alice/notes.txt" FileOps.FILE
    (FileOps.make "/repo/alice/notes.txt" FileOps.FILE Scenario.alice_cat).2
  = (Ok true, Scenario.alice_cat).
Proof.
  apply (make_then_remove_file "/repo/alice/notes.txt" Scenario.alice_cat).
  vm_compute. reflexivity.
Defined.

Lemma remove_removes_witness :
  FileOps.exists_ "/repo/alice" FileOps.DIRECTORY Scenario.alice_cat = true
  ∧ FileOps.exists_ "/repo/alice" FileOps.DIRECTORY
      (FileOps.remove "/repo/alice" FileOps.DIRECTORY Scenario.alice_cat).2 = false.
Proof.
  apply (remove_removes "/repo/alice" FileOps.DIRECTORY Scenario.alice_cat).
  - discriminate.
  - vm_compute. reflexivity.
Defined.

(** ** Names and extensions *)

Lemma take_drop_str n s : PyStr.take n s +:+ PyStr.drop n s = s.
Proof.
  revert s. induction n as [|n IH]; intros [|a s]; try reflexivity.
  simpl. change (String a (PyStr.take n s) +:+ PyStr.drop n s)
    with (String a (PyStr.take n s +:+ PyStr.drop n s)). by rewrite IH.
Qed.

(** Where [rfind] finds the character, the string goes on with it. *)
Lemma rfind_from_found c i found s :
  PyStr.rfind_from c i found s ≠ found →
  i ≤ PyStr.rfind_from c i found s
  ∧ ∃ rest, PyStr.drop (Z.to_nat (PyStr.rfind_from c i found s - i)) s = String c rest.
Proof.
  revert i found. induction s as [|a s IH]; intros i found; simpl; [done|].
  intros Hfound.
  destruct (decide (PyStr.rfind_from c (i + 1)
                      (if PyStr.ascii_eqb a c then i else found) s
                    = (if PyStr.ascii_eqb a c then i else found))) as [Heq|Hne].
  - rewrite Heq in *. destruct (PyStr.ascii_eqb a c) eqn:Hac; [|done].
    apply ascii_eqb_eq in Hac as ->. split; [lia|].
    replace (i - i) with 0 by lia. simpl. eauto.
  - destruct (IH _ _ Hne) as [Hle [rest Hrest]]. split; [lia|].
    exists rest.
    replace (Z.to_nat (PyStr.rfind_from c (i + 1)
               (if PyStr.ascii_eqb a c then i else found) s - i))
      with (S (Z.to_nat (PyStr.rfind_from c (i + 1)
                 (if PyStr.ascii_eqb a c then i else found) s - (i + 1))))
      by lia.
    exact Hrest.
Qed.

Lemma rfind_absent c s : PyStr.has_char c s = false → PyStr.rfind c s = -1.
Proof.
  unfold PyStr.rfind. generalize 0. induction s as [|a s IH]; intros i; [done|].
  simpl. intros [Ha Hs]%orb_false_elim. rewrite Ha. by apply IH.
Qed.

Lemma has_char_drop c n s :
  PyStr.has_char c s = false → PyStr.has_char c (PyStr.drop n s) = false.
Proof.
  revert s. induction n as [|n IH]; intros [|a s]; simpl; try done.
  intros [_ Hs]%orb_false_elim. by apply IH.
Qed.

(** The two parts [os.path.splitext] returns make up the path, and the
    second is empty or starts with the dot. *)
Lemma splitext_parts q :
  (OsPath.splitext q).1 +:+ (OsPath.splitext q).2 = q
  ∧ ((OsPath.splitext q).2 = ""
     ∨ ∃ rest, (OsPath.splitext q).2 = String "." rest).
Proof.
  unfold OsPath.splitext. destruct (_ && _) eqn:H; simpl.
  - split; [apply take_drop_str|]. right.
    apply andb_true_iff in H as [Hlt _]. apply Z.ltb_lt in Hlt.
    assert (-1 ≤ PyStr.rfind OsPath.sep q) as Hsep
      by (apply rfind_from_lower; lia).
    destruct (rfind_from_found OsPath.extsep 0 (-1) q) as [_ [rest Hrest]].
    { fold (PyStr.rfind OsPath.extsep q). lia. }
    fold (PyStr.rfind OsPath.extsep q) in Hrest.
    rewrite Z.sub_0_r in Hrest. eauto.
  - split; [apply str_app_nil_r|]. by left.
Qed.

(** X24. For a path whose name has an extension, the name without the
    extension, a dot and the extension make up the name again. *)
Theorem basename_extension_round_trip (path : string) :
  FileOps.get_extension path ≠ "" →
  FileOps.get_basename_less_extension path +:+ "." +:+ FileOps.get_extension path
  = FileOps.get_basename path.
Proof.
  unfold FileOps.get_extension, FileOps.get_basename_less_extension,
    FileOps.get_basename.
  destruct (splitext_parts (OsPath.basename path)) as [Hparts [Hnone|[rest Hrest]]].
  - rewrite Hnone. done.
  - intros _. rewrite Hrest in *. simpl. exact Hparts.
Qed.

Lemma basename_extension_round_trip_witness :
  FileOps.get_basename_less_extension "/repo/alice/Problem1.tar.gz" +:+ "."
    +:+ FileOps.get_extension "/repo/alice/Problem1.tar.gz"
  = FileOps.get_basename "/repo/alice/Problem1.tar.gz".
Proof.
  apply (basename_extension_round_trip "/repo/alice/Problem1.tar.gz"). discriminate.
Defined.

Lemma occurs_dot_absent new s :
  PyStr.has_char "." s = false → PyStr.replace "." new s = s.
Proof.
  intros Hs. apply replace_absent. induction s as [|a s IH]; [reflexivity|].
  simpl in Hs. apply orb_false_elim in Hs as [Ha Hs]. simpl.
  apply ascii_eqb_neq in Ha.
  rewrite (proj2 (ascii_eqb_neq "." a)) by congruence. simpl. by apply IH.
Qed.

(** X25. [get_path_with_changed_extension] gives a path without any dot
    back as it is: where there is no extension to change, the new
    extension is not added. *)
Theorem changed_extension_without_dot (path newExtension : string) :
  PyStr.has_char "." path = false →
  FileOps.get_extension path = ""
  ∧ FileOps.get_path_with_changed_extension path newExtension = path.
Proof.
  intros Hdot.
  assert (FileOps.get_extension path = "") as Hext.
  { unfold FileOps.get_extension, OsPath.splitext, OsPath.basename.
    rewrite (rfind_absent OsPath.extsep) by (by apply has_char_drop).
    assert (-1 ≤ PyStr.rfind OsPath.sep
                   (PyStr.drop (Z.to_nat (PyStr.rfind OsPath.sep path + 1)) path))
      as Hsep by (apply rfind_from_lower; lia).
    rewrite (proj2 (Z.ltb_ge _ _)) by lia. reflexivity. }
  split; [exact Hext|].
  unfold FileOps.get_path_with_changed_extension. rewrite Hext.
  by apply occurs_dot_absent.
Qed.

Lemma changed_extension_without_dot_witness :
  FileOps.get_extension "/repo/alice/Makefile" = ""
  ∧ FileOps.get_path_with_changed_extension "/repo/alice/Makefile" ".bak"
    = "/repo/alice/Makefile".
Proof.
  apply (changed_extension_without_dot "/repo/alice/Makefile" ".bak"). reflexivity.
Defined.

(** ** The solutions of a writer *)

Section WriterSolutions.
Context {Solution : Type}.

Lemma elem_of_foldl_app (x : Solution) (lists : list (list Solution)) start :
  x ∈ foldl (λ total l, total ++ l) start lists
  ↔ x ∈ start ∨ ∃ l, l ∈ lists ∧ x ∈ l.
Proof.
  revert start. induction lists as [|l lists IH]; intros start; simpl.
  - split; [by left|]. intros [H|(l & Hl & _)]; [done|]. by apply elem_of_nil in Hl.
  - rewrite IH, elem_of_app. split.
    + intros [[H|H]|(l' & Hl' & Hx)].
      * by left.
      * right. exists l. split; [left|done].
      * right. exists l'. split; [by right|done].
    + intros [H|(l' & [->|Hl']%elem_of_cons & Hx)].
      * left. by left.
      * left. by right.
      * right. eauto.
Qed.

(** X26. [get_all_solutions] holds exactly the solutions [get_solutions]
    returns for some problem number, and [get_solutions] returns the
    empty list for a problem number the writer has nothing for. *)
Theorem get_all_solutions_spec (_solutions : gmap Z (list Solution)) (x : Solution) :
  (x ∈ Writer.get_all_solutions _solutions
   ↔ ∃ problemNumber, x ∈ Writer.get_solutions _solutions problemNumber)
  ∧ (∀ problemNumber, _solutions !! problemNumber = None →
       Writer.get_solutions _solutions problemNumber = []).
Proof.
  split.
  - unfold Writer.get_all_solutions, Writer.get_solutions.
    rewrite elem_of_foldl_app. split.
    + intros [H|(l & Hl & Hx)]; [by apply elem_of_nil in H|].
      apply list_elem_of_fmap in Hl as ([n l'] & -> & Hin).
      apply elem_of_map_to_list in Hin. exists n. by rewrite Hin.
    + intros [n Hx]. destruct (_solutions !! n) as [l|] eqn:Hn;
        [|by apply elem_of_nil in Hx].
      right. exists l. split; [|done].
      apply list_elem_of_fmap. exists (n, l). split; [done|].
      by apply elem_of_map_to_list.
  - intros n Hn. unfold Writer.get_solutions. by rewrite Hn.
Qed.

End WriterSolutions.
